(** * save-the-data: the link collector of [utils/utils.py]

    A shallow embedding of [set_up_soup], [find_element] and
    [download_files], with the properties of the page fetcher, the link
    extractor, the file downloader and the subpage collector.

    Python [str] values are Rocq [string]s (ASCII text).  The outside world
    (file system, logger, network, clock, browser) is an explicit state;
    what the collaborators answer (the HTTP server, the operating system,
    the browser driver, the HTML parser) is an environment of oracles. *)

From Stdlib Require Import Ascii.
From stdpp Require Import base option list strings gmap pretty.

(** ** Python string operations used by the source *)

Module Str.

(** [bool(s)] for a [str]. *)
Definition truthy (s : string) : bool :=
  match s with "" => false | String _ _ => true end.

Fixpoint startswith (s p : string) : bool :=
  match p, s with
  | "", _ => true
  | String a p', String b s' => Ascii.eqb a b && startswith s' p'
  | String _ _, "" => false
  end.

(** [s.endswith(suf)]: some tail of [s] is [suf]. *)
Fixpoint endswith (s suf : string) : bool :=
  String.eqb s suf
  || match s with "" => false | String _ s' => endswith s' suf end.

(** [s.endswith(tuple)]. *)
Definition endswith_any (s : string) (sufs : list string) : bool :=
  existsb (endswith s) sufs.

(** [c in s]. *)
Fixpoint contains (c : ascii) (s : string) : bool :=
  match s with
  | "" => false
  | String a s' => Ascii.eqb a c || contains c s'
  end.

(** [s.partition(c)] when [c] occurs: the text before and after its first
    occurrence. *)
Fixpoint partition (c : ascii) (s : string) : option (string * string) :=
  match s with
  | "" => None
  | String a s' =>
      if Ascii.eqb a c then Some ("", s')
      else match partition c s' with
           | Some (l, r) => Some (String a l, r)
           | None => None
           end
  end.

(** [s.rpartition(c)] when [c] occurs: the text before and after its last
    occurrence. *)
Fixpoint rpartition (c : ascii) (s : string) : option (string * string) :=
  match s with
  | "" => None
  | String a s' =>
      match rpartition c s' with
      | Some (l, r) => Some (String a l, r)
      | None => if Ascii.eqb a c then Some ("", s') else None
      end
  end.

(** [s.split(c)]: never empty. *)
Fixpoint split (c : ascii) (s : string) : list string :=
  match s with
  | "" => [""]
  | String a s' =>
      if Ascii.eqb a c then "" :: split c s'
      else match split c s' with
           | x :: xs => String a x :: xs
           | [] => [String a ""]
           end
  end.

(** [sep.join(l)]. *)
Fixpoint join (sep : string) (l : list string) : string :=
  match l with
  | [] => ""
  | [x] => x
  | x :: xs => x +:+ sep +:+ join sep xs
  end.

Fixpoint forallb (P : ascii → bool) (s : string) : bool :=
  match s with
  | "" => true
  | String a s' => P a && forallb P s'
  end.

Definition in_range (lo hi : nat) (c : ascii) : bool :=
  (lo <=? nat_of_ascii c) && (nat_of_ascii c <=? hi).

Definition is_lower (c : ascii) : bool := in_range 97 122 c.
Definition is_upper (c : ascii) : bool := in_range 65 90 c.
Definition is_digit (c : ascii) : bool := in_range 48 57 c.
Definition is_alpha (c : ascii) : bool := is_lower c || is_upper c.

Definition lower_char (c : ascii) : ascii :=
  if is_upper c then ascii_of_nat (nat_of_ascii c + 32) else c.

Fixpoint lower (s : string) : string :=
  match s with
  | "" => ""
  | String a s' => String (lower_char a) (lower s')
  end.

(** [repr] of a tuple of plain strings, as an f-string prints it. *)
Definition repr_tuple (l : list string) : string :=
  "(" +:+ join ", " (map (λ s, "'" +:+ s +:+ "'") l)
      +:+ (match l with [_] => "," | _ => "" end) +:+ ")".

End Str.

(** ** [os.path] (POSIX flavour) *)

Module OsPath.

(** [posixpath.basename]: [p[p.rfind('/') + 1:]]. *)
Definition basename (p : string) : string :=
  match Str.rpartition "/" p with
  | Some (_, tail) => tail
  | None => p
  end.

(** [posixpath.join(a, b)]. *)
Definition join (a b : string) : string :=
  if Str.startswith b "/" then b
  else if negb (Str.truthy a) || Str.endswith a "/" then a +:+ b
  else a +:+ "/" +:+ b.

End OsPath.

(** ** [urllib.parse.urljoin]

    The source calls the standard library's [urljoin]; this is its splitting
    and merging algorithm (RFC 3986 reference resolution as urllib performs
    it).  The library's validation of bracketed hosts and its removal of
    control characters from the URL are not part of the model, in which
    [urljoin] is a total function. *)

Module Url.

Definition mem (s : string) (l : list string) : bool :=
  existsb (String.eqb s) l.

Definition uses_relative : list string :=
  [""; "ftp"; "http"; "gopher"; "nntp"; "imap"; "wais"; "file"; "https";
   "shttp"; "mms"; "prospero"; "rtsp"; "rtspu"; "sftp"; "svn"; "svn+ssh";
   "ws"; "wss"].

Definition uses_netloc : list string :=
  [""; "ftp"; "http"; "gopher"; "nntp"; "telnet"; "imap"; "wais"; "file";
   "mms"; "https"; "shttp"; "snews"; "prospero"; "rtsp"; "rtspu"; "rsync";
   "svn"; "svn+ssh"; "sftp"; "nfs"; "git"; "git+ssh"; "ws"; "wss"].

Definition uses_params : list string :=
  [""; "ftp"; "hdl"; "prospero"; "http"; "imap"; "https"; "shttp"; "rtsp";
   "rtspu"; "sip"; "sips"; "mms"; "sftp"; "tel"].

Definition scheme_char (c : ascii) : bool :=
  Str.is_alpha c || Str.is_digit c || Str.contains c "+-.".

(** The six components of [urlparse]. *)
Record parts := Parts {
  scheme : string;
  netloc : string;
  path : string;
  params : string;
  query : string;
  fragment : string
}.

(** The scheme prefix of [urlsplit]: letters, digits and [+-.] before the
    first colon, starting with a letter; otherwise the default. *)
Definition split_scheme (url dflt : string) : string * string :=
  match Str.partition ":" url with
  | Some (String c _ as pre, rest) =>
      if Str.is_alpha c && Str.forallb scheme_char pre
      then (Str.lower pre, rest) else (dflt, url)
  | _ => (dflt, url)
  end.

Definition is_delim (c : ascii) : bool := Str.contains c "/?#".

Fixpoint span_netloc (s : string) : string * string :=
  match s with
  | "" => ("", "")
  | String a s' =>
      if is_delim a then ("", s)
      else let '(n, r) := span_netloc s' in (String a n, r)
  end.

(** [_splitnetloc(url, 2)] under the test [url[:2] == '//']. *)
Definition split_netloc (url : string) : string * string :=
  match url with
  | String "/" (String "/" rest) => span_netloc rest
  | _ => ("", url)
  end.

(** [url.split(c, 1)] under the test [c in url]. *)
Definition split_once (c : ascii) (url : string) : string * string :=
  match Str.partition c url with
  | Some (l, r) => (l, r)
  | None => (url, "")
  end.

(** [_splitparams] under the test [';' in url]. *)
Definition splitparams (url : string) : string * string :=
  match Str.rpartition "/" url with
  | Some (head, tail) =>
      match Str.partition ";" tail with
      | Some (t, p) => (head +:+ "/" +:+ t, p)
      | None => (url, "")
      end
  | None => split_once ";" url
  end.

Definition urlparse (url dflt : string) : parts :=
  let '(sch, url) := split_scheme url dflt in
  let '(loc, url) := split_netloc url in
  let '(url, frag) := split_once "#" url in
  let '(url, qry) := split_once "?" url in
  let '(url, prm) :=
    if mem sch uses_params && Str.contains ";" url
    then splitparams url else (url, "") in
  Parts sch loc url prm qry frag.

Definition urlunsplit (sch loc url qry frag : string) : string :=
  let url :=
    if Str.truthy loc
       || (Str.truthy sch && mem sch uses_netloc
           && negb (Str.startswith url "//"))
    then "//" +:+ loc
         +:+ (if Str.truthy url && negb (Str.startswith url "/")
              then "/" +:+ url else url)
    else url in
  let url := if Str.truthy sch then sch +:+ ":" +:+ url else url in
  let url := if Str.truthy qry then url +:+ "?" +:+ qry else url in
  if Str.truthy frag then url +:+ "#" +:+ frag else url.

Definition urlunparse (p : parts) : string :=
  let url :=
    if Str.truthy (params p) then path p +:+ ";" +:+ params p else path p in
  urlunsplit (scheme p) (netloc p) url (query p) (fragment p).

(** [segments[1:-1] = filter(None, segments[1:-1])]. *)
Definition drop_empty_middle (l : list string) : list string :=
  match l with
  | [] => []
  | [x] => [x]
  | x :: rest => x :: filter (λ s, Str.truthy s) (removelast rest)
                   ++ [List.last rest ""]
  end.

(** The loop over [segments] that builds [resolved_path]. *)
Fixpoint resolve (segments resolved : list string) : list string :=
  match segments with
  | [] => resolved
  | seg :: rest =>
      if String.eqb seg ".." then resolve rest (removelast resolved)
      else if String.eqb seg "." then resolve rest resolved
      else resolve rest (resolved ++ [seg])
  end.

Definition urljoin (base url : string) : string :=
  if negb (Str.truthy base) then url
  else if negb (Str.truthy url) then base
  else
    let b := urlparse base "" in
    let u := urlparse url (scheme b) in
    if negb (String.eqb (scheme u) (scheme b))
       || negb (mem (scheme u) uses_relative) then url
    else if mem (scheme u) uses_netloc && Str.truthy (netloc u) then
      urlunparse u
    else
      let loc := if mem (scheme u) uses_netloc then netloc b else netloc u in
      if negb (Str.truthy (path u)) && negb (Str.truthy (params u)) then
        urlunparse
          (Parts (scheme u) loc (path b) (params b)
             (if Str.truthy (query u) then query u else query b)
             (fragment u))
      else
        let base_parts := Str.split "/" (path b) in
        let base_parts :=
          if String.eqb (List.last base_parts "") "" then base_parts
          else removelast base_parts in
        let segments :=
          if Str.startswith (path u) "/" then Str.split "/" (path u)
          else drop_empty_middle (base_parts ++ Str.split "/" (path u)) in
        let resolved := resolve segments [] in
        let resolved :=
          if mem (List.last segments "") ["."; ".."]
          then resolved ++ [""] else resolved in
        let joined := Str.join "/" resolved in
        urlunparse
          (Parts (scheme u) loc
             (if Str.truthy joined then joined else "/")
             (params u) (query u) (fragment u)).

End Url.

(** ** The extension pattern of the subpage filter *)

Module Re.

(** The class [\w] on ASCII text. *)
Definition is_word (c : ascii) : bool :=
  Str.is_alpha c || Str.is_digit c || Ascii.eqb c "_".

(** [$] without MULTILINE: at the end of the text, or just before a
    line feed that is its last character. *)
Definition at_dollar (s : string) : bool :=
  match s with
  | "" => true
  | String c "" => Ascii.eqb c "010"
  | _ => false
  end.

(** Exactly [k] word characters, then [$]. *)
Fixpoint words_then_end (k : nat) (s : string) : bool :=
  match k with
  | 0 => at_dollar s
  | S k' =>
      match s with
      | "" => false
      | String c s' => is_word c && words_then_end k' s'
      end
  end.

(** [\.\w{3,5}$] anchored at the start of [s]. *)
Definition match_here (s : string) : bool :=
  match s with
  | String c r => Ascii.eqb c "." && existsb (λ k, words_then_end k r) [5; 4; 3]
  | "" => false
  end.

(** [re.search(re.compile(r'\.\w{3,5}$'), s)] as a truth value: the
    pattern matches at some position of [s]. *)
Fixpoint search_extension (s : string) : bool :=
  match_here s
  || match s with "" => false | String _ s' => search_extension s' end.

End Re.

Definition line_feed : string := String "010" "".

(** ** Exceptions, the world, and the collaborators *)

(** Python exceptions, by the classes the source tells apart.  All of them
    derive from [Exception]. *)
Inductive exn :=
| RequestException (msg : string)   (* requests: transport errors, HTTPError *)
| WebDriverException (msg : string) (* selenium *)
| TimeoutException                  (* selenium: a wait ran out *)
| OSError (msg : string)            (* open, write, makedirs *)
| OtherException (msg : string).    (* any other subclass of Exception *)

(** [str(e)]. *)
Definition exn_str (e : exn) : string :=
  match e with
  | RequestException m | WebDriverException m | OSError m
  | OtherException m => m
  | TimeoutException => "Message: "
  end.

Inductive result (A : Type) :=
| Ok (a : A)
| Raise (e : exn).
Arguments Ok {A} a.
Arguments Raise {A} e.

(** An entry of the file system: a regular file with its content, or a
    directory. *)
Inductive node :=
| File (content : string)
| Dir.

Inductive log_entry :=
| INFO (msg : string)
| ERROR (msg : string).

(** A GET request as [requests.get(url, headers=..., timeout=...)] sends it. *)
Record request := Request {
  req_url : string;
  req_user_agent : string;
  req_timeout : nat
}.

Record response := Response {
  status_code : nat;
  content : string
}.

(** An anchor tag: the values of its [href] and [type] attributes, as
    [a.get(...)] returns them ([None] when the attribute is absent). *)
Record anchor := Anchor {
  a_href : option string;
  a_type : option string
}.

(** What the source uses of a parsed page: [soup.find_all('a')], in
    document order. *)
Abbreviation soup := (list anchor).

Inductive parser := Lxml | HtmlParser.

(** CSS selectors built by [find_element]: [a[href]] and [a[href$=...]]. *)
Inductive selector :=
| AnyHref
| HrefEndsWith (suffix : string).

Record world := World {
  fs : gmap string node;   (* path ↦ entry *)
  log : list log_entry;    (* what the logger received, oldest first *)
  net : list request;      (* GET requests sent, oldest first *)
  clock : nat;             (* seconds spent sleeping or waiting *)
  browsers : nat           (* browser processes running *)
}.

Definition set_fs (f : gmap string node) (w : world) : world :=
  World f (log w) (net w) (clock w) (browsers w).
Definition add_log (e : log_entry) (w : world) : world :=
  World (fs w) (log w ++ [e]) (net w) (clock w) (browsers w).
Definition add_request (r : request) (w : world) : world :=
  World (fs w) (log w) (net w ++ [r]) (clock w) (browsers w).
Definition advance (n : nat) (w : world) : world :=
  World (fs w) (log w) (net w) (clock w + n) (browsers w).
Definition set_browsers (n : nat) (w : world) : world :=
  World (fs w) (log w) (net w) (clock w) n.

(** The answers of the collaborators.  Each may depend on the whole state,
    so servers, disks and pages that change over time are covered. *)
Record env := Env {
  http : world → request → result response;       (* requests.get *)
  makedirs_error : world → string → option exn;   (* os.makedirs failing *)
  open_error : world → string → option exn;       (* open(...) failing *)
  write_error : world → string → option exn;      (* file.write failing *)
  chrome_error : world → bool → option exn;       (* webdriver.Chrome failing *)
  get_error : world → string → option exn;        (* driver.get failing *)
  present : world → selector → bool;              (* a matching element is in the page *)
  page_source : world → result string;            (* driver.page_source *)
  parse : parser → string → result soup           (* BeautifulSoup(markup, parser) *)
}.

(** ** Computations: state passing with exceptions *)

Definition M (A : Type) : Type := world → result A * world.

Definition ret {A} (a : A) : M A := λ w, (Ok a, w).

Definition raise {A} (e : exn) : M A := λ w, (Raise e, w).

Definition bind {A B} (m : M A) (k : A → M B) : M B :=
  λ w, match m w with
       | (Ok a, w') => k a w'
       | (Raise e, w') => (Raise e, w')
       end.

Notation "'let*' x ':=' m 'in' k" := (bind m (λ x, k))
  (at level 10, x name, m at level 100, k at level 200).
Notation "'do' m 'in' k" := (bind m (λ _, k))
  (at level 10, m at level 100, k at level 200).

(** [try: body / except Exception as e: handler e]. *)
Definition try_except {A} (body : M A) (handler : exn → M A) : M A :=
  λ w, match body w with
       | (Ok a, w') => (Ok a, w')
       | (Raise e, w') => handler e w'
       end.

Definition logger_info (msg : string) : M unit :=
  λ w, (Ok tt, add_log (INFO msg) w).

Definition logger_error (msg : string) : M unit :=
  λ w, (Ok tt, add_log (ERROR msg) w).

Definition time_sleep (n : nat) : M unit :=
  λ w, (Ok tt, advance n w).

(** *** File system *)

Fixpoint rstrip_slash (p : string) : string :=
  match p with
  | "" => ""
  | String a p' =>
      match rstrip_slash p' with
      | "" => if Ascii.eqb a "/" then "" else String a ""
      | r => String a r
      end
  end.

(** [os.path.exists]: a path written with a trailing slash names a
    directory. *)
Definition path_exists (f : gmap string node) (p : string) : bool :=
  if Str.endswith p "/" then
    match f !! rstrip_slash p with Some Dir => true | _ => false end
  else
    match f !! p with Some _ => true | None => false end.

Definition os_path_exists (p : string) : M bool :=
  λ w, (Ok (path_exists (fs w) p), w).

(** [os.makedirs(p, exist_ok=True)]. *)
Definition os_makedirs (E : env) (p : string) : M unit :=
  λ w, match makedirs_error E w p with
       | Some e => (Raise e, w)
       | None =>
           match fs w !! rstrip_slash p with
           | Some (File _) => (Raise (OSError "File exists"), w)
           | _ => (Ok tt, set_fs (<[rstrip_slash p := Dir]> (fs w)) w)
           end
       end.

(** [open(p, 'wb')] and [open(p, 'w')]: the file is created or emptied. *)
Definition open_write (E : env) (p : string) : M unit :=
  λ w, match open_error E w p with
       | Some e => (Raise e, w)
       | None =>
           if Str.endswith p "/" then (Raise (OSError "Is a directory"), w)
           else match fs w !! p with
                | Some Dir => (Raise (OSError "Is a directory"), w)
                | _ => (Ok tt, set_fs (<[p := File ""]> (fs w)) w)
                end
       end.

(** [file.write(data)] on the file opened at [p]. *)
Definition file_write (E : env) (p data : string) : M unit :=
  λ w, match write_error E w p with
       | Some e => (Raise e, w)
       | None =>
           match fs w !! p with
           | Some (File c) =>
               (Ok tt, set_fs (<[p := File (c +:+ data)]> (fs w)) w)
           | _ => (Raise (OSError "Bad file descriptor"), w)
           end
       end.

(** *** Network *)

Definition requests_get (E : env) (url : string) (timeout : nat)
    (user_agent : string) : M response :=
  λ w, let r := Request url user_agent timeout in
       let w' := add_request r w in
       (http E w' r, w').

(** The statuses [raise_for_status] rejects: 400 to 599. *)
Definition bad_status (r : response) : bool :=
  (400 <=? status_code r) && (status_code r <? 600).

(** The text of the [HTTPError] (without the reason phrase). *)
Definition status_message (url : string) (r : response) : string :=
  pretty (status_code r)
  +:+ (if status_code r <? 500 then " Client Error" else " Server Error")
  +:+ " for url: " +:+ url.

(** [response.raise_for_status()]. *)
Definition raise_for_status (url : string) (r : response) : M unit :=
  if bad_status r then raise (RequestException (status_message url r))
  else ret tt.

(** *** Browser *)

Definition webdriver_Chrome (E : env) (headless : bool) : M unit :=
  λ w, match chrome_error E w headless with
       | Some e => (Raise e, w)
       | None => (Ok tt, set_browsers (S (browsers w)) w)
       end.

Definition driver_get (E : env) (url : string) : M unit :=
  λ w, match get_error E w url with
       | Some e => (Raise e, w)
       | None => (Ok tt, w)
       end.

Definition driver_page_source (E : env) : M string :=
  λ w, (page_source E w, w).

Definition driver_quit : M unit :=
  λ w, (Ok tt, set_browsers (pred (browsers w)) w).

Definition BeautifulSoup (E : env) (markup : string) (p : parser) : M soup :=
  λ w, (parse E p markup, w).

(** [WebDriverWait(driver, budget).until(presence_of_element_located(sel))]:
    the page is looked at once per second, from now until [budget] seconds
    from now; the first look that finds an element returns it, and after
    the last one [TimeoutException] is raised. *)
Fixpoint wait_until (E : env) (sel : selector) (budget : nat) (w : world)
    : result selector * world :=
  if present E w sel then (Ok sel, w)
  else match budget with
       | 0 => (Raise TimeoutException, w)
       | S b => wait_until E sel b (advance 1 w)
       end.

(** ** [find_element] *)

(** The list [selectors] of the source (its [print] is not modelled). *)
Definition selectors_of (file_types : list string) : list selector :=
  if decide (file_types = ["all"]) then [AnyHref]
  else map HrefEndsWith file_types.

(** The loop over [zip(file_types, selectors)]: each selector is waited
    for up to 10 seconds, and any exception moves on to the next one. *)
Fixpoint find_element_loop (E : env) (pairs : list (string * selector))
    : M (option (selector * string)) :=
  match pairs with
  | [] => ret None
  | (file_type, sel) :: rest =>
      λ w, match wait_until E sel 10 w with
           | (Ok element, w') => (Ok (Some (element, file_type)), w')
           | (Raise _, w') => find_element_loop E rest w'
           end
  end.

Definition find_element (E : env) (file_types : list string)
    : M (option (selector * string)) :=
  find_element_loop E (zip file_types (selectors_of file_types)).

(** ** [set_up_soup] *)

Definition page_user_agent (alt_header_required : bool) : string :=
  if alt_header_required then
    "Mozilla/5.0 (Windows NT 10.0; Win64; x64) AppleWebKit/537.36 (KHTML, like Gecko) Chrome/91.0.4472.124 Safari/537.36 MDI/ResearchCollector"
  else "MDI Research Data Collector".

(** [file_types_to_wait] is a tuple; the empty list also stands for
    [None]. *)
Definition set_up_soup (E : env) (url : string) (dynamic headless : bool)
    (file_types_to_wait : list string) (timeout : nat)
    (alt_header_required : bool) : M soup :=
  if negb dynamic then
    let headers := page_user_agent alt_header_required in
    try_except
      (let* response := requests_get E url timeout headers in
       do raise_for_status url response in
       let* soup := BeautifulSoup E (content response) Lxml in
       do logger_info ("Successfully fetched and parsed URL: " +:+ url) in
       ret soup)
      (λ e, match e with
            | RequestException m =>
                do logger_error ("Error fetching URL " +:+ url +:+ ": " +:+ m) in
                raise e
            | _ => raise e
            end)
  else
    try_except
      (do webdriver_Chrome E headless in
       do driver_get E url in
       do (match file_types_to_wait with
           | _ :: _ =>
               let* found := find_element E file_types_to_wait in
               match found with
               | Some (_, file_type) =>
                   logger_info ("Found " +:+ file_type
                                +:+ " file - proceed to parse HTML")
               | None =>
                   logger_error
                     ("No element found containing the specified file types: "
                      +:+ Str.repr_tuple file_types_to_wait)
               end
           | [] => logger_info "No file types specified - proceed to parse HTML"
           end) in
       let* html := driver_page_source E in
       let* soup := BeautifulSoup E html HtmlParser in
       do driver_quit in
       ret soup)
      (λ e, do logger_error ("Failed to initialize driver: " +:+ exn_str e) in
            raise e).

(** ** [download_files] *)

Definition type_is_zip (a : anchor) : bool :=
  match a_type a with
  | Some t => String.eqb t "zip"
  | None => false
  end.

(** The condition of the comprehension in the branch [if file_types:]:
    [a.get('href') and (a.get('href').endswith(file_types)
                        or a.get('type') == 'zip')]. *)
Definition selected_with_types (file_types : list string) (a : anchor)
    : bool :=
  match a_href a with
  | Some h =>
      Str.truthy h && (Str.endswith_any h file_types || type_is_zip a)
  | None => false
  end.

(** The condition of the comprehension in the [else] branch, also used by
    the subpage filter: [a.get('href')]. *)
Definition has_href (a : anchor) : bool :=
  match a_href a with
  | Some h => Str.truthy h
  | None => false
  end.

(** [[a.get('href') for a in soup.find_all('a') if cond(a)]]. *)
Definition hrefs_where (cond : anchor → bool) (s : soup) : list string :=
  omap a_href (filter (λ a, cond a = true) s).

Definition hrefs_with_types (file_types : list string) (s : soup)
    : list string :=
  hrefs_where (selected_with_types file_types) s.

Definition hrefs_all (s : soup) : list string :=
  hrefs_where has_href s.

(** [file_types] is a tuple or [None]; [if file_types:] holds for a
    tuple that is not empty. *)
Definition extract_hrefs (file_types : option (list string)) (s : soup)
    : list string :=
  match file_types with
  | Some (t :: ts) => hrefs_with_types (t :: ts) s
  | _ => hrefs_all s
  end.

(** The directory the files go to: [file_path/data] unless [is_subpage]. *)
Definition data_dir (file_path : string) (is_subpage : bool) : string :=
  if negb is_subpage then file_path +:+ "/data" else file_path.

Definition file_user_agent (alt_header_required : bool) : string :=
  if alt_header_required then
    "Mozilla/5.0 (Windows NT 10.0; Win64; x64) AppleWebKit/537.36 (KHTML, like Gecko) Chrome/91.0.4472.124 Safari/537.36 UrbanInstitute/ResearchCollector"
  else "Urban Institute Research Data Collector".

(** [file_name] of the loop body. *)
Definition file_name_of (file_path href : string) : string :=
  OsPath.join file_path (OsPath.basename href).

(** The [try] block of the loop body, for one href. *)
Definition download_body (E : env) (file_path base_url : string)
    (timeout : nat) (alt_header_required : bool) (href : string) : M unit :=
  let file_url := Url.urljoin base_url href in
  let file_name := file_name_of file_path href in
  let* found := os_path_exists file_name in
  if found then logger_info ("File already exists: " +:+ file_name)
  else
    do time_sleep 5 in
    let headers := file_user_agent alt_header_required in
    let* file_response := requests_get E file_url timeout headers in
    do raise_for_status file_url file_response in
    do open_write E file_name in
    do file_write E file_name (content file_response) in
    logger_info ("Successfully downloaded file: " +:+ file_name).

(** The two [except] clauses. *)
Definition download_handler (href : string) (e : exn) : M unit :=
  match e with
  | RequestException m =>
      logger_error ("Error downloading file " +:+ href +:+ ": " +:+ m)
  | _ => logger_error ("Unexpected error: " +:+ exn_str e)
  end.

Definition download_one (E : env) (file_path base_url : string)
    (timeout : nat) (alt_header_required : bool) (href : string) : M unit :=
  try_except
    (download_body E file_path base_url timeout alt_header_required href)
    (download_handler href).

(** [for href in hrefs: ...]. *)
Fixpoint download_loop (E : env) (file_path base_url : string)
    (timeout : nat) (alt_header_required : bool) (hrefs : list string)
    : M unit :=
  match hrefs with
  | [] => ret tt
  | href :: rest =>
      do download_one E file_path base_url timeout alt_header_required href in
      download_loop E file_path base_url timeout alt_header_required rest
  end.

(** [for href in hrefs: f.write(href + '\n')]. *)
Fixpoint write_lines (E : env) (p : string) (lines : list string) : M unit :=
  match lines with
  | [] => ret tt
  | l :: rest =>
      do file_write E p (l +:+ line_feed) in
      write_lines E p rest
  end.

(** The condition of the comprehension of the subpage filter:
    [a.get('href') and not re.search(file_extension_pattern, a.get('href'))]. *)
Definition subpage_link (a : anchor) : bool :=
  match a_href a with
  | Some h => Str.truthy h && negb (Re.search_extension h)
  | None => false
  end.

Definition subpage_hrefs (s : soup) : list string :=
  hrefs_where subpage_link s.

Definition download_files (E : env) (s : soup) (file_path base_url : string)
    (file_types : option (list string)) (get_subpages is_subpage : bool)
    (timeout : nat) (alt_header_required : bool)
    : M (option (list string)) :=
  let hrefs := extract_hrefs file_types s in
  let file_path := data_dir file_path is_subpage in
  do os_makedirs E file_path in
  do download_loop E file_path base_url timeout alt_header_required hrefs in
  if get_subpages then
    let hrefs := map (Url.urljoin base_url) (subpage_hrefs s) in
    do logger_info ("Found " +:+ pretty (length hrefs) +:+ " subpages") in
    do open_write E (file_path +:+ "/subpages.txt") in
    do write_lines E (file_path +:+ "/subpages.txt") hrefs in
    ret (Some hrefs)
  else ret None.

(** ** What one href can do to the world *)

(** The GET request of the loop body. *)
Definition file_request (base_url : string) (timeout : nat)
    (alt_header_required : bool) (href : string) : request :=
  Request (Url.urljoin base_url href) (file_user_agent alt_header_required)
    timeout.

(** The log entry the [except] clauses write for an exception. *)
Definition failure_entry (href : string) (e : exn) : log_entry :=
  match e with
  | RequestException m =>
      ERROR ("Error downloading file " +:+ href +:+ ": " +:+ m)
  | _ => ERROR ("Unexpected error: " +:+ exn_str e)
  end.

(** What one href may do to the file system: nothing, or create or
    overwrite the regular file at its destination [p]. *)
Inductive fs_step (p : string) (f : gmap string node)
    : gmap string node → Prop :=
| fs_same : fs_step p f f
| fs_written c :
    Str.endswith p "/" = false → f !! p ≠ Some Dir →
    fs_step p f (<[p := File c]> f).

(** The three ways the body of the loop ends for one href: the file is
    there already; something failed after the request was sent; the file
    was fetched and written. *)
Inductive outcome (E : env) (file_path base_url : string) (timeout : nat)
    (alt : bool) (href : string) (w : world) : world → Prop :=
| outcome_skip :
    path_exists (fs w) (file_name_of file_path href) = true →
    outcome E file_path base_url timeout alt href w
      (add_log
         (INFO ("File already exists: " +:+ file_name_of file_path href)) w)
| outcome_failed e w1 :
    path_exists (fs w) (file_name_of file_path href) = false →
    net w1 = net w ++ [file_request base_url timeout alt href] →
    fs_step (file_name_of file_path href) (fs w) (fs w1) →
    log w1 = log w →
    outcome E file_path base_url timeout alt href w
      (add_log (failure_entry href e) w1)
| outcome_success r w1 :
    path_exists (fs w) (file_name_of file_path href) = false →
    Str.endswith (file_name_of file_path href) "/" = false →
    w1 = add_request (file_request base_url timeout alt href) (advance 5 w) →
    http E w1 (file_request base_url timeout alt href) = Ok r →
    bad_status r = false →
    outcome E file_path base_url timeout alt href w
      (add_log
         (INFO ("Successfully downloaded file: "
                +:+ file_name_of file_path href))
         (set_fs (<[file_name_of file_path href := File (content r)]> (fs w1))
            w1)).

(** ** The statements of the specification, as it words them *)

(** The extractor's rule for a suffix set that is not empty: the href ends
    in one of the suffixes, or the type attribute equals [zip]. *)
Definition stated_selected (file_types : list string) (a : anchor) : bool :=
  match a_href a with
  | Some h => Str.endswith_any h file_types
  | None => false
  end
  || type_is_zip a.

(** The href without fragment and query string. *)
Definition strip_query_fragment (href : string) : string :=
  (Url.split_once "?" (Url.split_once "#" href).1).1.

(** The destination name: the final path segment of the href, query string
    and fragment stripped. *)
Definition stated_file_name (href : string) : string :=
  OsPath.basename (strip_query_fragment href).




(** [s] ends in [suf], as a proposition. *)
Definition ends_with (s suf : string) : Prop := ∃ pre, s = pre +:+ suf.

(** An anchor with an href that is not empty. *)
Definition linked (a : anchor) : Prop :=
  ∃ h, a_href a = Some h ∧ h ≠ "".

(** An anchor with an href that is not empty and that ends in one of the
    suffixes, unless the type attribute is [zip]. *)
Definition wanted (file_types : list string) (a : anchor) : Prop :=
  ∃ h, a_href a = Some h ∧ h ≠ ""
       ∧ ((∃ suf, suf ∈ file_types ∧ ends_with h suf)
          ∨ a_type a = Some "zip").

(** [l] lists [f a] for the elements [a] of [s] that satisfy [P], in the
    order of [s], one entry per element: nothing is merged or reordered. *)
Inductive picks {A B : Type} (P : A → Prop) (f : A → option B)
    : list A → list B → Prop :=
| picks_nil : picks P f [] []
| picks_keep a b s l :
    P a → f a = Some b → picks P f s l → picks P f (a :: s) (b :: l)
| picks_skip a s l :
    ¬ P a → picks P f s l → picks P f (a :: s) l.

(** The hrefs of the anchors of the page that satisfy [P], in document
    order, duplicates included. *)
Definition selection (P : anchor → Prop) : soup → list string → Prop :=
  picks P a_href.




(** The course of [find_element]: the selectors are polled in order; one
    that shows up within its 10 seconds ends the search, one that does not
    costs its 10 seconds and hands over to the next. *)
Inductive tried (E : env)
    : list (string * selector) → world → option (selector * string)
      → world → Prop :=
| tried_exhausted w : tried E [] w None w
| tried_found file_type sel rest w k :
    k ≤ 10 →
    present E (advance k w) sel = true →
    (∀ j, j < k → present E (advance j w) sel = false) →
    tried E ((file_type, sel) :: rest) w (Some (sel, file_type)) (advance k w)
| tried_next file_type sel rest w r w' :
    (∀ j, j ≤ 10 → present E (advance j w) sel = false) →
    tried E rest (advance 10 w) r w' →
    tried E ((file_type, sel) :: rest) w r w'.

(** The log entries one href can leave. *)
Inductive logged_for (file_path href : string) : log_entry → Prop :=
| logged_exists :
    logged_for file_path href
      (INFO ("File already exists: " +:+ file_name_of file_path href))
| logged_success :
    logged_for file_path href
      (INFO ("Successfully downloaded file: " +:+ file_name_of file_path href))
| logged_request_error m :
    logged_for file_path href
      (ERROR ("Error downloading file " +:+ href +:+ ": " +:+ m))
| logged_unexpected m :
    logged_for file_path href (ERROR ("Unexpected error: " +:+ m)).

(** ** Scenarios *)

Definition fresh_world : world := World ∅ [] [] 0 0.

(** A world without faults: [server] answers by URL, [nav] says which page
    loads fail, [dom] says which elements are present at which second. *)
Definition scenario (server : string → result response)
    (nav : string → option exn) (dom : nat → selector → bool)
    (html : string) (parsed : soup) : env :=
  Env (λ _ r, server (req_url r))
      (λ _ _, None) (λ _ _, None) (λ _ _, None)
      (λ _ _, None) (λ _ u, nav u)
      (λ w sel, dom (clock w) sel)
      (λ _, Ok html) (λ _ _, Ok parsed).

(** Every URL answers 200 with the URL as body. *)
Definition echo_server (url : string) : result response :=
  Ok (Response 200 url).

(** Only URLs under [/b/] are served. *)
Definition partial_server (url : string) : result response :=
  if Str.startswith url "https://example.org/b/" then Ok (Response 200 url)
  else Ok (Response 404 "Not Found").

Definition static_site (server : string → result response) : env :=
  scenario server (λ _, None) (λ _ _, false) "" [].

(** A browser that cannot reach the page. *)
Definition unreachable_site : env :=
  scenario echo_server
    (λ _, Some (WebDriverException "unknown error: net::ERR_NAME_NOT_RESOLVED"))
    (λ _ _, false) "" [].

(** A page that loads but never shows a matching link. *)
Definition empty_site : env :=
  scenario echo_server (λ _, None) (λ _ _, false) "<html></html>" [].

(** A page whose [.pdf] link shows up after 13 seconds. *)
Definition slow_site : env :=
  scenario echo_server (λ _, None)
    (λ t sel, match sel with
              | HrefEndsWith ".pdf" => 13 <=? t
              | _ => false
              end)
    "<html></html>" [Anchor (Some "late.pdf") None].

(** The download directory with [a.csv] left by an earlier run. *)
Definition second_run_world : world :=
  set_fs (<["out/data/a.csv" := File "old"]> {["out/data" := Dir]})
    fresh_world.


(** * The other helpers of [utils.py] *)

(** ** [set_up_driver] *)

(** [download_location] only sets download preferences of the browser,
    which the world does not record. *)
Definition set_up_driver (E : env) (headless : bool)
    (download_location : option string) : M unit :=
  try_except
    (do webdriver_Chrome E headless in
     logger_info "Successfully initialized driver")
    (λ e, do logger_error ("Failed to initialize driver: " +:+ exn_str e) in
          raise e).

(** ** [create_logger] *)

(** [posixpath.dirname]. *)
Definition os_path_dirname (p : string) : string :=
  match Str.rpartition "/" p with
  | Some (l, _) =>
      let head := l +:+ "/" in
      if Str.forallb (Ascii.eqb "/") head then head else rstrip_slash head
  | None => ""
  end.

(** [open(p, 'a')], as a [FileHandler] opens its file: the file is created
    when it is missing and kept as it is otherwise. *)
Definition open_append (E : env) (p : string) : M unit :=
  λ w, match open_error E w p with
       | Some e => (Raise e, w)
       | None =>
           if Str.endswith p "/" then (Raise (OSError "Is a directory"), w)
           else match fs w !! p with
                | Some Dir => (Raise (OSError "Is a directory"), w)
                | Some (File _) => (Ok tt, w)
                | None => (Ok tt, set_fs (<[p := File ""]> (fs w)) w)
                end
       end.

Inductive handler :=
| FileHandler (path : string)
| StreamHandler.

(** A logger of the [logging] module: its level and its handlers, in the
    order they were added. *)
Record logger := Logger {
  level : nat;
  handlers : list handler
}.

Definition INFO_level : nat := 20.

(** [logging.getLogger(name)]: the logger registered under the name, made
    on first use. *)
Definition getLogger (loggers : gmap string logger) (name : string) : logger :=
  default (Logger 0 []) (loggers !! name).

(** The file the log goes to; [now] is
    [datetime.now().strftime('%Y%m%d_%H%M%S')]. *)
Definition log_filename (file_path resource_name now : string) : string :=
  file_path +:+ "/logs/" +:+ resource_name +:+ "_" +:+ now +:+ ".log".

(** [create_logger], on the registry of loggers and the world.  It returns
    the logger, that is, its name in the registry. *)
Definition create_logger (E : env) (file_path resource_name now : string)
    (loggers : gmap string logger) (w : world)
    : result string * (gmap string logger * world) :=
  let name := log_filename file_path resource_name now in
  match os_makedirs E (os_path_dirname name) w with
  | (Raise e, w1) => (Raise e, (loggers, w1))
  | (Ok _, w1) =>
      let found := getLogger loggers resource_name in
      let loggers1 :=
        <[resource_name := Logger INFO_level (handlers found)]> loggers in
      match open_append E name w1 with
      | (Raise e, w2) => (Raise e, (loggers1, w2))
      | (Ok _, w2) =>
          (Ok resource_name,
           (<[resource_name :=
                Logger INFO_level
                  (handlers found ++ [FileHandler name; StreamHandler])]>
              loggers,
            w2))
      end
  end.

(** The handlers that emit a record sent to the logger [name]. *)
Definition handlers_of (loggers : gmap string logger) (name : string)
    : list handler :=
  handlers (getLogger loggers name).

(** ** The Selenium helpers *)

Module Ui.

(** Exceptions, by the classes the helpers tell apart. *)
Inductive exn :=
| Timeout                       (* TimeoutException *)
| NoSuchElement (msg : string)  (* NoSuchElementException *)
| Other (msg : string).         (* any other Exception *)

Inductive res (A : Type) :=
| Done (a : A)
| Raised (e : exn).
Arguments Done {A} a.
Arguments Raised {A} e.

(** What was done to the page. *)
Inductive action :=
| Click (element : string)
| SelectByValue (element value : string)
| SelectByText (element text : string)
| SelectByIndex (element : string) (index : option nat)
| Clear (element : string)
| SendKeys (element text : string).

Record session := Session {
  now : nat;              (* seconds spent waiting *)
  stdout : list string;   (* lines printed *)
  actions : list action   (* what was done to the page, oldest first *)
}.

(** The session [k] seconds later. *)
Definition later (k : nat) (s : session) : session :=
  Session (now s + k) (stdout s) (actions s).
Definition tick (s : session) : session := later 1 s.
Definition add_line (l : string) (s : session) : session :=
  Session (now s) (stdout s ++ [l]) (actions s).
Definition add_action (a : action) (s : session) : session :=
  Session (now s) (stdout s) (actions s ++ [a]).

(** The page as the driver sees it; elements are named by handles. *)
Record page := Page {
  clickable : session → string → string → res (option string);
    (* element_to_be_clickable((by, identifier)): the element when it is
       displayed and enabled, nothing when it is not, or the exception of
       the look-up *)
  visible : session → string → string → res (option string);
    (* visibility_of_element_located((by, identifier)) *)
  script_error : session → string → option exn;   (* execute_script failing *)
  select_error : session → action → option exn;   (* Select(...).select_by_... failing *)
  clear_error : session → string → option exn;
  send_keys_error : session → string → string → option exn;
  attribute : session → string → string → res (option string)
    (* element.get_attribute(name) *)
}.

Definition U (A : Type) : Type := session → res A * session.

Definition ret {A} (a : A) : U A := λ s, (Done a, s).

Definition bind {A B} (m : U A) (k : A → U B) : U B :=
  λ s, match m s with
       | (Done a, s') => k a s'
       | (Raised e, s') => (Raised e, s')
       end.

Definition try_except {A} (body : U A) (handler : exn → U A) : U A :=
  λ s, match body s with
       | (Done a, s') => (Done a, s')
       | (Raised e, s') => handler e s'
       end.

Definition print (l : string) : U unit := λ s, (Done tt, add_line l s).

(** One look of a [WebDriverWait]: [NoSuchElementException] is the one
    exception that the wait ignores, it counts as "not yet". *)
Definition poll {A} (condition : session → res (option A)) (s : session)
    : res (option A) :=
  match condition s with
  | Raised (NoSuchElement _) => Done None
  | r => r
  end.

(** A look that neither gives a value nor ends the wait. *)
Definition quiet {A} (r : res (option A)) : Prop :=
  r = Done None ∨ ∃ msg, r = Raised (NoSuchElement msg).

(** [WebDriverWait(driver, budget).until(condition)]: the condition is
    tried once per second, from now until [budget] seconds from now; the
    first look that gives a value returns it, an exception of a look other
    than [NoSuchElementException] ends the wait at once, and after the last
    look [TimeoutException] is raised. *)
Fixpoint until {A} (condition : session → res (option A)) (budget : nat)
    (s : session) : res A * session :=
  match poll condition s with
  | Done (Some a) => (Done a, s)
  | Raised e => (Raised e, s)
  | Done None =>
      match budget with
      | 0 => (Raised Timeout, s)
      | S b => until condition b (tick s)
      end
  end.

(** The first argument of [click_button]: an element, or an identifier to
    look up. *)
Inductive target :=
| WebElement (element : string)
| Identifier (identifier : string).

(** The target in a message. *)
Definition target_str (t : target) : string :=
  match t with WebElement e => e | Identifier i => i end.

Definition execute_click (P : page) (element : string) : U unit :=
  λ s, match script_error P s element with
       | Some e => (Raised e, s)
       | None => (Done tt, add_action (Click element) s)
       end.

(** The three [except] clauses of a helper, with its two messages. *)
Definition report (timeout_line not_found_line : string) (e : exn) : U unit :=
  match e with
  | Timeout => print timeout_line
  | NoSuchElement _ => print not_found_line
  | Other m => print ("An error occurred: " +:+ m)
  end.

(** [click_button(identifier, driver, by, timeout)]. *)
Definition click_button (P : page) (identifier : target) (by_ : string)
    (timeout : nat) : U unit :=
  try_except
    (bind
       (match identifier with
        | WebElement element => ret element
        | Identifier i => until (λ s, clickable P s by_ i) timeout
        end)
       (λ element, execute_click P element))
    (report
       ("Timeout: The button with identifier " +:+ target_str identifier
        +:+ " was not clickable within " +:+ pretty timeout +:+ " seconds.")
       ("Error: The button with identifier " +:+ target_str identifier
        +:+ " was not found.")).

(** The choice among [select_by_value], [select_by_visible_text] and
    [select_by_index]. *)
Definition choice (element : string) (value option_ : option string)
    (index : option nat) : action :=
  match value, option_ with
  | Some v, _ => SelectByValue element v
  | None, Some o => SelectByText element o
  | None, None => SelectByIndex element index
  end.

Definition select (P : page) (a : action) : U unit :=
  λ s, match select_error P s a with
       | Some e => (Raised e, s)
       | None => (Done tt, add_action a s)
       end.

(** [select_dropdown(identifier, driver, by, value, option, index,
    wait_for_visibility)]. *)
Definition select_dropdown (P : page) (identifier by_ : string)
    (value option_ : option string) (index : option nat)
    (wait_for_visibility : bool) : U bool :=
  try_except
    (bind
       (if wait_for_visibility
        then bind (until (λ s, visible P s by_ identifier) 15) (λ _, ret tt)
        else ret tt)
       (λ _,
          bind (until (λ s, clickable P s by_ identifier) 15)
            (λ element,
               bind (select P (choice element value option_ index))
                 (λ _, ret true))))
    (λ e,
       bind
         (report
            ("Timeout: The menu with identifier " +:+ identifier
             +:+ " was not clickable within 15 seconds.")
            ("Error: The menu with identifier " +:+ identifier
             +:+ " was not found.") e)
         (λ _, ret false)).

Definition clear (P : page) (element : string) : U unit :=
  λ s, match clear_error P s element with
       | Some e => (Raised e, s)
       | None => (Done tt, add_action (Clear element) s)
       end.

Definition send_keys (P : page) (element text : string) : U unit :=
  λ s, match send_keys_error P s element text with
       | Some e => (Raised e, s)
       | None => (Done tt, add_action (SendKeys element text) s)
       end.

(** [enter_text(identifier, text, driver, by)]. *)
Definition enter_text (P : page) (identifier text by_ : string) : U unit :=
  try_except
    (bind (until (λ s, clickable P s by_ identifier) 15)
       (λ element,
          bind (clear P element) (λ _, send_keys P element text)))
    (report
       ("Timeout: The text box with identifier " +:+ identifier
        +:+ " was not clickable within 15 seconds.")
       ("Error: The text box with identifier " +:+ identifier
        +:+ " was not found.")).

(** [get_href(identifier, driver, by)]. *)
Definition get_href (P : page) (identifier by_ : string)
    : U (option string) :=
  bind (until (λ s, clickable P s by_ identifier) 15)
    (λ element, λ s, (attribute P s element "href", s)).

(** A page whose button [go] becomes clickable after 3 seconds and whose
    other elements never do. *)
Definition sample_page : page :=
  Page (λ s _ i, if String.eqb i "go" && (3 <=? now s)
                 then Done (Some "button#go")
                 else if String.eqb i "state" then Done (Some "select#state")
                 else if String.eqb i "missing"
                 then Raised (NoSuchElement "no such element")
                 else Done None)
       (λ s _ i, if String.eqb i "state" then Done (Some "select#state")
                 else Done None)
       (λ _ _, None) (λ _ _, None) (λ _ _, None) (λ _ _ _, None)
       (λ _ e _, if String.eqb e "button#go" then Done (Some "/next")
                 else Done None).

Definition start : session := Session 0 [] [].

End Ui.

(** * Properties *)

#[local] Arguments String.append : simpl nomatch.
#[local] Arguments Url.urljoin : simpl never.
#[local] Arguments file_name_of : simpl never.
#[local] Arguments file_user_agent : simpl never.
#[local] Arguments page_user_agent : simpl never.
#[local] Arguments path_exists : simpl never.
#[local] Arguments pretty : simpl never.
#[local] Arguments Str.repr_tuple : simpl never.

(** ** Strings *)

Section Strings.


Lemma app_assoc_str (s t u : string) : (s +:+ t) +:+ u = s +:+ t +:+ u.
Proof. induction s as [|a s IH]; simpl; [done | by rewrite IH]. Qed.

Lemma app_length_str (s t : string) :
  String.length (s +:+ t) = String.length s + String.length t.
Proof. induction s as [|a s IH]; simpl; [done | by rewrite IH]. Qed.

Lemma app_eq_empty (s t : string) : s +:+ t = "" → s = "" ∧ t = "".
Proof. destruct s; simpl; [done | discriminate]. Qed.

Lemma truthy_true (s : string) : Str.truthy s = true ↔ s ≠ "".
Proof. destruct s; simpl; split; congruence. Qed.

Lemma endswith_spec (s suf : string) :
  Str.endswith s suf = true ↔ ends_with s suf.
Proof.
  unfold ends_with. induction s as [|a s IH].
  - change (Str.endswith "" suf) with (String.eqb "" suf || false).
    rewrite orb_false_r, String.eqb_eq. split.
    + intros <-. by exists "".
    + intros [pre H]. symmetry in H. apply app_eq_empty in H. by destruct H.
  - change (Str.endswith (String a s) suf)
      with (String.eqb (String a s) suf || Str.endswith s suf).
    rewrite orb_true_iff, String.eqb_eq, IH. split.
    + intros [<- | [pre ->]]; [by exists "" | by exists (String a pre)].
    + intros [[|b pre] H]; simpl in H.
      * by left.
      * right. exists pre. congruence.
Qed.

Lemma endswith_any_spec (s : string) (sufs : list string) :
  Str.endswith_any s sufs = true ↔ ∃ suf, suf ∈ sufs ∧ ends_with s suf.
Proof.
  unfold Str.endswith_any. rewrite existsb_exists. split.
  - intros (suf & Hin & H). exists suf. split.
    + by apply list_elem_of_In.
    + by apply endswith_spec.
  - intros (suf & Hin & H). exists suf. split.
    + by apply list_elem_of_In.
    + by apply endswith_spec.
Qed.

Lemma contains_app (c : ascii) (s t : string) :
  Str.contains c (s +:+ t) = Str.contains c s || Str.contains c t.
Proof.
  induction s as [|a s IH]; simpl; [done|].
  by rewrite IH, orb_assoc.
Qed.

Lemma rpartition_None (c : ascii) (s : string) :
  Str.rpartition c s = None ↔ Str.contains c s = false.
Proof.
  induction s as [|a s IH]; simpl; [done|].
  destruct (Str.rpartition c s) as [[l r]|].
  - destruct IH as [_ IH]. split; [done|].
    intros [_ H]%orb_false_iff. by specialize (IH H).
  - destruct IH as [IH _]. rewrite (IH eq_refl), orb_false_r.
    destruct (Ascii.eqb a c); split; done.
Qed.

Lemma rpartition_Some (c : ascii) (s l r : string) :
  Str.rpartition c s = Some (l, r) →
  s = l +:+ String c r ∧ Str.contains c r = false.
Proof.
  revert l r. induction s as [|a s IH]; simpl; intros l r H; [done|].
  destruct (Str.rpartition c s) as [[l' r']|] eqn:Hs.
  - injection H as <- <-. destruct (IH _ _ eq_refl) as [-> Hr].
    by split.
  - destruct (Ascii.eqb a c) eqn:Hac; [|done].
    injection H as <- <-. apply Ascii.eqb_eq in Hac as ->.
    split; [done|]. by apply rpartition_None.
Qed.

Lemma partition_None (c : ascii) (s : string) :
  Str.partition c s = None ↔ Str.contains c s = false.
Proof.
  induction s as [|a s IH]; simpl; [done|].
  destruct (Ascii.eqb a c); simpl; [done|].
  destruct (Str.partition c s) as [[l r]|].
  - destruct IH as [_ IH]. split; [done|].
    intros H. by specialize (IH H).
  - by destruct IH as [IH _].
Qed.

(** [basename] cuts the path after its last slash. *)
Lemma basename_spec (p : string) :
  ∃ head, p = head +:+ OsPath.basename p
          ∧ (head = "" ∨ ends_with head "/")
          ∧ Str.contains "/" (OsPath.basename p) = false.
Proof.
  unfold OsPath.basename.
  destruct (Str.rpartition "/" p) as [[l r]|] eqn:H.
  - apply rpartition_Some in H as [-> Hr].
    exists (l +:+ "/"). split; [|split; [|done]].
    + by rewrite app_assoc_str.
    + right. by exists l.
  - apply rpartition_None in H. exists "". by split; [|split; [left|]].
Qed.

Lemma basename_no_slash (p : string) :
  Str.contains "/" p = false → OsPath.basename p = p.
Proof.
  intros H. unfold OsPath.basename.
  by apply rpartition_None in H as ->.
Qed.

Lemma basename_app (head tail : string) :
  Str.contains "/" tail = false →
  head = "" ∨ ends_with head "/" →
  OsPath.basename (head +:+ tail) = tail.
Proof.
  intros Ht [-> | [pre ->]]; [by apply basename_no_slash|].
  rewrite app_assoc_str. simpl. unfold OsPath.basename.
  destruct (Str.rpartition "/" (pre +:+ String "/" tail)) as [[l r]|] eqn:H.
  - apply rpartition_Some in H as [H Hr].
    revert l H. induction pre as [|a pre IH]; simpl; intros l H.
    + destruct l as [|b l]; simpl in H; [congruence|].
      injection H as <- H. rewrite H, contains_app in Ht. simpl in Ht.
      rewrite ?Ascii.eqb_refl, ?orb_true_r in Ht. done.
    + destruct l as [|b l]; simpl in H.
      * injection H as -> H. rewrite <- H, contains_app in Hr. simpl in Hr.
        rewrite ?Ascii.eqb_refl, ?orb_true_r in Hr. done.
      * injection H as <- H. by apply (IH l).
  - apply rpartition_None in H. rewrite contains_app in H. simpl in H.
    rewrite ?Ascii.eqb_refl, ?orb_true_r in H. done.
Qed.

End Strings.

(** ** The download loop *)



Ltac unfold_download :=
  unfold download_one, try_except, download_body, download_handler, bind,
    os_path_exists, time_sleep, requests_get, raise_for_status, open_write,
    file_write, logger_info, logger_error, raise, ret.

(** Projections of an updated world. *)
Ltac wsimpl :=
  cbn [net fs log clock browsers add_request add_log set_fs advance
       set_browsers fst snd].

Section Download.

Context (E : env) (file_path base_url : string) (timeout : nat)
  (alt : bool).

Local Abbreviation one := (download_one E file_path base_url timeout alt).
Local Abbreviation loop := (download_loop E file_path base_url timeout alt).
Local Abbreviation body := (download_body E file_path base_url timeout alt).
Local Abbreviation dest := (file_name_of file_path).
Local Abbreviation req := (file_request base_url timeout alt).
Local Abbreviation ends := (outcome E file_path base_url timeout alt).

Lemma download_one_existing (href : string) (w : world) :
  path_exists (fs w) (dest href) = true →
  one href w
  = (Ok tt, add_log (INFO ("File already exists: " +:+ dest href)) w).
Proof. intros H. unfold_download. cbn beta iota. by rewrite H. Qed.

(** One href always ends normally, in one of the three ways. *)
Lemma download_one_outcome (href : string) (w : world) :
  ∃ w', one href w = (Ok tt, w') ∧ ends href w w'.
Proof.
  unfold_download. cbn beta iota.
  destruct (path_exists (fs w) (dest href)) eqn:Hex.
  { eexists. split; [reflexivity|]. by constructor. }
  fold (req href).
  set (w1 := add_request (req href) (advance 5 w)).
  destruct (http E w1 (req href)) as [r|e] eqn:Hhttp.
  2:{ eexists. split; [|apply (outcome_failed _ _ _ _ _ _ _ e w1); done || constructor].
      by destruct e. }
  destruct (bad_status r) eqn:Hst; cbn beta iota.
  { eexists. split; [reflexivity|].
    apply (outcome_failed _ _ _ _ _ _ _ (RequestException _) w1);
      done || constructor. }
  destruct (open_error E w1 (dest href)) as [e|] eqn:Hopen.
  { eexists. split; [|apply (outcome_failed _ _ _ _ _ _ _ e w1); done || constructor].
    by destruct e. }
  destruct (Str.endswith (dest href) "/") eqn:Hslash.
  { eexists. split; [reflexivity|].
    apply (outcome_failed _ _ _ _ _ _ _ (OSError _) w1);
      done || constructor. }
  assert (Hdone : fs w1 !! dest href ≠ Some Dir →
            ∃ w', try_except
                    (let* _ := file_write E (dest href) (content r) in
                     logger_info
                       ("Successfully downloaded file: " +:+ dest href))
                    (download_handler href)
                    (set_fs (<[dest href := File ""]> (fs w1)) w1)
                  = (Ok tt, w')
                  ∧ ends href w w').
  { intros Hd. unfold_download. cbn beta iota. wsimpl.
    destruct (write_error E _ (dest href)) as [e|] eqn:Hwrite.
    { eexists. split; [|apply (outcome_failed _ _ _ _ _ _ _ e); [done|..]].
      - by destruct e.
      - done.
      - wsimpl. by constructor.
      - done. }
    rewrite lookup_insert_eq, insert_insert_eq. cbn beta iota.
    eexists. split; [reflexivity|].
    by apply (outcome_success _ _ _ _ _ _ _ r w1). }
  destruct (fs w1 !! dest href) as [[c|]|] eqn:Hlook.
  - apply Hdone; done.
  - eexists. split; [reflexivity|].
    apply (outcome_failed _ _ _ _ _ _ _ (OSError _) w1);
      done || constructor.
  - apply Hdone; done.
Qed.

Lemma failure_entry_logged (href : string) (e : exn) :
  logged_for file_path href (failure_entry href e).
Proof. destruct e; constructor. Qed.

Lemma outcome_log (href : string) (w w' : world) :
  ends href w w' →
  ∃ e, log w' = log w ++ [e] ∧ logged_for file_path href e.
Proof.
  intros [H | e w1 _ _ _ Hlog | r w1 _ _ -> _ _]; wsimpl.
  - eexists. split; [done | constructor].
  - rewrite Hlog. eexists. split; [done | apply failure_entry_logged].
  - eexists. split; [done | constructor].
Qed.


Lemma not_exists_None (f : gmap string node) (p : string) :
  Str.endswith p "/" = false → path_exists f p = false → f !! p = None.
Proof.
  unfold path_exists. intros ->. by destruct (f !! p).
Qed.

(** The file system after one href differs from the one before at most by
    a regular file at the destination. *)
Lemma outcome_fs (href : string) (w w' : world) :
  ends href w w' → fs_step (dest href) (fs w) (fs w').
Proof.
  intros [H | e w1 _ _ Hfs _ | r w1 H Hslash -> _ _]; wsimpl.
  - constructor.
  - done.
  - constructor; [done|]. by rewrite (not_exists_None _ _ Hslash H).
Qed.


Lemma fs_step_other (k : string) (f f' : gmap string node) (p : string) :
  fs_step k f f' → p ≠ k → f' !! p = f !! p.
Proof. intros [|c Hk Hd] Hp; [done|]. by rewrite lookup_insert_ne. Qed.

Lemma fs_step_dir (k : string) (f f' : gmap string node) (p : string) :
  fs_step k f f' → f' !! p = Some Dir ↔ f !! p = Some Dir.
Proof.
  intros [|c Hk Hd]; [done|].
  destruct (decide (k = p)) as [->|Hne].
  - rewrite lookup_insert_eq. split; [done|]. intros H. by rewrite H in Hd.
  - by rewrite lookup_insert_ne.
Qed.



Lemma download_one_returns (href : string) (w : world) :
  ∃ w', one href w = (Ok tt, w').
Proof. destruct (download_one_outcome href w) as (w' & H & _). eauto. Qed.

Lemma download_one_ends (href : string) (w : world) :
  ends href w (one href w).2.
Proof. destruct (download_one_outcome href w) as (w' & -> & H). done. Qed.

Lemma download_loop_cons (href : string) (rest : list string) (w : world) :
  loop (href :: rest) w = loop rest (one href w).2.
Proof.
  destruct (download_one_returns href w) as (w1 & H1).
  simpl. unfold bind. by rewrite H1.
Qed.



Lemma download_loop_log (hrefs : list string) (w : world) :
  ∃ w' entries,
    loop hrefs w = (Ok tt, w')
    ∧ log w' = log w ++ entries
    ∧ Forall2 (logged_for file_path) hrefs entries.
Proof.
  revert w. induction hrefs as [|href rest IH]; intros w.
  - exists w, []. simpl. rewrite app_nil_r. by repeat split.
  - destruct (outcome_log href w _ (download_one_ends href w))
      as (e & Hlog & He).
    destruct (IH (one href w).2) as (w' & entries & H2 & Hlog' & Hall).
    exists w', (e :: entries). split; [|split].
    + by rewrite download_loop_cons.
    + by rewrite Hlog', Hlog, <- app_assoc.
    + by constructor.
Qed.

End Download.



(** C2. The loop over the hrefs never raises: whatever the network and the
    file system do, it returns normally after leaving exactly one log entry
    per href, in order; and an exception raised in the [try] block of one
    href is turned into an error entry while the loop goes on. *)
Theorem download_loop_never_raises (E : env) (file_path base_url : string)
    (timeout : nat) (alt : bool) (hrefs : list string) (w : world) :
  (∃ w' entries,
     download_loop E file_path base_url timeout alt hrefs w = (Ok tt, w')
     ∧ log w' = log w ++ entries
     ∧ Forall2 (logged_for file_path) hrefs entries)
  ∧ ∀ href rest w0 w1 e,
      download_body E file_path base_url timeout alt href w0 = (Raise e, w1) →
      download_one E file_path base_url timeout alt href w0
      = (Ok tt, add_log (failure_entry href e) w1)
      ∧ download_loop E file_path base_url timeout alt (href :: rest) w0
        = download_loop E file_path base_url timeout alt rest
            (add_log (failure_entry href e) w1).
Proof.
  split; [apply download_loop_log|].
  intros href rest w0 w1 e H.
  assert (H1 : download_one E file_path base_url timeout alt href w0
               = (Ok tt, add_log (failure_entry href e) w1)).
  { unfold download_one, try_except. rewrite H. by destruct e. }
  split; [done|]. by rewrite download_loop_cons, H1.
Qed.

Lemma download_loop_never_raises_witness :
  download_one (static_site partial_server) "out/data" "https://example.org/"
    30 false "a/f.zip" fresh_world
  = (Ok tt,
     add_log
       (ERROR "Error downloading file a/f.zip: 404 Client Error for url: https://example.org/a/f.zip")
       (add_request
          (file_request "https://example.org/" 30 false "a/f.zip")
          (advance 5 fresh_world))).
Proof.
  refine (proj1 (proj2 (download_loop_never_raises (static_site partial_server)
                          "out/data" "https://example.org/" 30 false [] fresh_world)
                   "a/f.zip" [] fresh_world _
                   (RequestException
                      "404 Client Error for url: https://example.org/a/f.zip")
                   _)).
  vm_compute; reflexivity.
Defined.





(** The scenario of the specification: of the links [a.csv], [b.txt] and
    [c.zip], a run for [.txt] and [.csv] fetches the first two into
    [data]; a second run with [a.csv] on disk fetches [b.txt] only. *)
Example first_run_fetches_matching_links :
  ∃ w',
    download_files (static_site echo_server)
      [Anchor (Some "a.csv") None; Anchor (Some "b.txt") None;
       Anchor (Some "c.zip") None]
      "out" "https://example.org/" (Some [".txt"; ".csv"]) false false 30
      false fresh_world = (Ok None, w')
    ∧ map req_url (net w')
      = ["https://example.org/a.csv"; "https://example.org/b.txt"]
    ∧ fs w' !! "out/data/a.csv" = Some (File "https://example.org/a.csv")
    ∧ fs w' !! "out/data/b.txt" = Some (File "https://example.org/b.txt")
    ∧ fs w' !! "out/data/c.zip" = None.
Proof. eexists. vm_compute. repeat split. Qed.

Example second_run_fetches_missing_links_only :
  ∃ w',
    download_files (static_site echo_server)
      [Anchor (Some "a.csv") None; Anchor (Some "b.txt") None;
       Anchor (Some "c.zip") None]
      "out" "https://example.org/" (Some [".txt"; ".csv"]) false false 30
      false second_run_world = (Ok None, w')
    ∧ map req_url (net w') = ["https://example.org/b.txt"]
    ∧ fs w' !! "out/data/a.csv" = Some (File "old")
    ∧ log w'
      = [INFO "File already exists: out/data/a.csv";
         INFO "Successfully downloaded file: out/data/b.txt"].
Proof. eexists. vm_compute. repeat split. Qed.

(** ** Link extraction *)

Lemma picks_functional {A B : Type} (P : A → Prop) (f : A → option B)
    (s : list A) (l1 l2 : list B) :
  picks P f s l1 → picks P f s l2 → l1 = l2.
Proof.
  intros H1. revert l2.
  induction H1 as [|a b s l Pa Hb _ IH|a s l Pa _ IH]; intros l2 H2.
  - by inversion H2.
  - inversion H2; subst; [|done]. f_equal; [congruence|]. by apply IH.
  - inversion H2; subst; [done|]. by apply IH.
Qed.

Lemma hrefs_where_picks (cond : anchor → bool) (P : anchor → Prop)
    (s : soup) :
  (∀ a, cond a = true ↔ P a) →
  (∀ a, P a → is_Some (a_href a)) →
  selection P s (hrefs_where cond s).
Proof.
  intros Hcond Hsome. unfold selection, hrefs_where.
  induction s as [|a s IH]; [constructor|].
  destruct (cond a) eqn:Ha.
  - rewrite filter_cons_True by done.
    destruct (Hsome a) as [h Hh]; [by apply Hcond|].
    simpl. rewrite Hh. simpl. apply picks_keep; [by apply Hcond|done|done].
  - rewrite filter_cons_False by congruence.
    apply picks_skip; [|done]. intros HP%Hcond. congruence.
Qed.

Lemma type_is_zip_spec (a : anchor) :
  type_is_zip a = true ↔ a_type a = Some "zip".
Proof.
  unfold type_is_zip. destruct (a_type a) as [t|]; [|done].
  rewrite String.eqb_eq. split; congruence.
Qed.

Lemma selected_with_types_spec (file_types : list string) (a : anchor) :
  selected_with_types file_types a = true ↔ wanted file_types a.
Proof.
  unfold selected_with_types, wanted.
  destruct (a_href a) as [h|]; [|split; [done | by intros (h & ? & _)]].
  rewrite andb_true_iff, orb_true_iff, truthy_true, endswith_any_spec,
    type_is_zip_spec.
  split.
  - intros [Hh Hor]. by exists h.
  - intros (h' & [= <-] & Hh & Hor). done.
Qed.

Lemma has_href_spec (a : anchor) : has_href a = true ↔ linked a.
Proof.
  unfold has_href, linked.
  destruct (a_href a) as [h|]; [|split; [done | by intros (h & ? & _)]].
  rewrite truthy_true. split.
  - intros Hh. by exists h.
  - by intros (h' & [= <-] & Hh).
Qed.

Lemma hrefs_all_selection (s : soup) : selection linked s (hrefs_all s).
Proof.
  apply hrefs_where_picks; [apply has_href_spec|].
  intros a (h & -> & _). by eexists.
Qed.

(** C3, as stated, fails: an anchor whose type attribute is [zip] and that
    has no href satisfies the stated rule, yet the extractor leaves it
    out. *)
Lemma zip_typed_anchor_without_href_is_left_out :
  stated_selected [".zip"; ".pdf"] (Anchor None (Some "zip")) = true
  ∧ selected_with_types [".zip"; ".pdf"] (Anchor None (Some "zip")) = false
  ∧ extract_hrefs (Some [".zip"; ".pdf"]) [Anchor None (Some "zip")] = [].
Proof. vm_compute. repeat split. Qed.

(** C3, amended.  With a suffix set that is not empty the extractor keeps
    exactly the anchors that have a non-empty href and whose href ends
    (same characters, same case) in one of the suffixes or whose type
    attribute equals [zip]; with [None] or an empty set it keeps every
    anchor that has a non-empty href.  Either way the result is the list of
    the hrefs of the kept anchors in document order, one entry per anchor. *)
Theorem extract_hrefs_selection (file_types : option (list string))
    (s : soup) (l : list string) :
  match file_types with
  | Some (t :: ts) => selection (wanted (t :: ts)) s l
  | _ => selection linked s l
  end
  ↔ l = extract_hrefs file_types s.
Proof.
  assert (Hw : ∀ fts, selection (wanted fts) s (hrefs_with_types fts s)).
  { intros fts. apply hrefs_where_picks; [apply selected_with_types_spec|].
    intros a (h & -> & _). by eexists. }
  pose proof (hrefs_all_selection s) as Ha.
  destruct file_types as [[|t ts]|]; simpl; split.
  all: try (intros ->; first [apply Ha | apply Hw]).
  all: intros H; eapply picks_functional; first [exact H | apply Ha | apply Hw].
Qed.

Example extract_hrefs_sample :
  extract_hrefs (Some [".zip"; ".pdf"])
    [Anchor (Some "A.ZIP") None; Anchor (Some "b.zip") None;
     Anchor (Some "x") (Some "zip"); Anchor (Some "") (Some "zip");
     Anchor (Some "b.zip") None; Anchor (Some "c.pdf.txt") None]
  = ["b.zip"; "x"; "b.zip"].
Proof. reflexivity. Qed.

(** ** Destination names *)

Lemma split_once_absent (c : ascii) (s : string) :
  Str.contains c s = false → Url.split_once c s = (s, "").
Proof.
  intros H. unfold Url.split_once. by apply partition_None in H as ->.
Qed.

(** C6, as stated, fails: the query string and the fragment of an href stay
    in the name of the file it is saved to. *)
Lemma query_string_stays_in_file_name :
  stated_file_name "files/report.pdf?v=2#top" = "report.pdf"
  ∧ file_name_of "out/data" "files/report.pdf?v=2#top"
    = "out/data/report.pdf?v=2#top"
  ∧ ∃ w',
      download_one (static_site echo_server) "out/data" "https://example.org/"
        30 false "files/report.pdf?v=2#top" fresh_world = (Ok tt, w')
      ∧ fs w' !! "out/data/report.pdf?v=2#top"
        = Some (File "https://example.org/files/report.pdf?v=2#top")
      ∧ fs w' !! "out/data/report.pdf" = None.
Proof. split; [|split]; [reflexivity..|]. eexists. vm_compute. repeat split. Qed.

(** C6, amended.  The file an href is saved to is named by the text of the
    href after its last slash (the whole href when it has none), joined to
    the download directory: processing the href touches no other path.  A
    query string or a fragment in that text is kept; the name is the final
    path segment of the URL for the hrefs that have neither. *)
Theorem file_name_is_text_after_last_slash (E : env)
    (file_path base_url : string) (timeout : nat) (alt : bool)
    (href : string) (w : world) :
  (∃ head,
     href = head +:+ OsPath.basename href
     ∧ (head = "" ∨ ends_with head "/")
     ∧ Str.contains "/" (OsPath.basename href) = false)
  ∧ (∀ p, p ≠ OsPath.join file_path (OsPath.basename href) →
          fs (download_one E file_path base_url timeout alt href w).2 !! p
          = fs w !! p)
  ∧ (Str.contains "?" href = false → Str.contains "#" href = false →
     OsPath.basename href = stated_file_name href).
Proof.
  split; [apply basename_spec|]. split.
  - intros p Hp.
    apply (fs_step_other (file_name_of file_path href)); [|done].
    apply (outcome_fs E file_path base_url timeout alt), download_one_ends.
  - intros Hq Hf. unfold stated_file_name, strip_query_fragment.
    rewrite (split_once_absent _ _ Hf). simpl.
    by rewrite (split_once_absent _ _ Hq).
Qed.

Lemma file_name_is_text_after_last_slash_witness :
  fs (download_one (static_site echo_server) "out/data" "https://example.org/"
        30 false "files/report.pdf" fresh_world).2 !! "out/data/other.pdf"
  = None
  ∧ OsPath.basename "files/report.pdf" = stated_file_name "files/report.pdf".
Proof.
  pose proof (file_name_is_text_after_last_slash (static_site echo_server)
                "out/data" "https://example.org/" 30 false "files/report.pdf"
                fresh_world) as (_ & Hother & Hname).
  split.
  - rewrite (Hother "out/data/other.pdf"); [reflexivity|].
    vm_compute. discriminate.
  - apply Hname; reflexivity.
Defined.

(** ** The extension pattern *)






(** The subpage filter drops, from the hrefs of all anchors, those the
    extension pattern matches. *)
Lemma subpage_hrefs_filter (s : soup) :
  subpage_hrefs s
  = filter (λ h, negb (Re.search_extension h)) (hrefs_all s).
Proof.
  unfold subpage_hrefs, hrefs_all, hrefs_where.
  induction s as [|a s IH]; [done|].
  unfold subpage_link at 1, has_href at 1.
  destruct (a_href a) as [h|] eqn:Hh.
  - destruct (Str.truthy h) eqn:Ht; cbn [andb].
    + rewrite (filter_cons_True (λ a, has_href a = true))
        by (unfold has_href; by rewrite Hh, Ht).
      cbn [omap list_omap]. rewrite Hh.
      destruct (Re.search_extension h) eqn:Hs.
      * rewrite (filter_cons_False (λ a, subpage_link a = true))
          by (unfold subpage_link; rewrite Hh, Ht, Hs; done).
        rewrite filter_cons_False by (cbn beta; rewrite Hs; intros []).
        apply IH.
      * rewrite (filter_cons_True (λ a, subpage_link a = true))
          by (unfold subpage_link; by rewrite Hh, Ht, Hs).
        rewrite filter_cons_True by (cbn beta; rewrite Hs; exact I).
        cbn [omap list_omap]. rewrite Hh. f_equal. apply IH.
    + rewrite (filter_cons_False (λ a, subpage_link a = true))
        by (unfold subpage_link; rewrite Hh, Ht; done).
      rewrite (filter_cons_False (λ a, has_href a = true))
        by (unfold has_href; rewrite Hh, Ht; done).
      apply IH.
  - rewrite (filter_cons_False (λ a, subpage_link a = true))
      by (unfold subpage_link; rewrite Hh; done).
    rewrite (filter_cons_False (λ a, has_href a = true))
      by (unfold has_href; rewrite Hh; done).
    apply IH.
Qed.


(** ** The subpage manifest *)

Lemma rstrip_slash_length (p : string) :
  String.length (rstrip_slash p) ≤ String.length p.
Proof.
  induction p as [|a p IH]; simpl; [done|].
  destruct (rstrip_slash p); [destruct (Ascii.eqb a "/")|]; simpl in *; lia.
Qed.



Lemma download_loop_dir (E : env) (file_path base_url : string)
    (timeout : nat) (alt : bool) (hrefs : list string) (w : world)
    (p : string) :
  fs (download_loop E file_path base_url timeout alt hrefs w).2 !! p
  = Some Dir
  ↔ fs w !! p = Some Dir.
Proof.
  revert w. induction hrefs as [|href rest IH]; intros w; [done|].
  rewrite download_loop_cons, IH.
  apply (fs_step_dir (file_name_of file_path href)).
  apply (outcome_fs E file_path base_url timeout alt), download_one_ends.
Qed.

Lemma download_loop_returns (E : env) (file_path base_url : string)
    (timeout : nat) (alt : bool) (hrefs : list string) (w : world) :
  download_loop E file_path base_url timeout alt hrefs w
  = (Ok tt, (download_loop E file_path base_url timeout alt hrefs w).2).
Proof.
  destruct (download_loop_log E file_path base_url timeout alt hrefs w)
    as (w' & entries & -> & _). done.
Qed.




(** ** Waiting for an element *)

Lemma advance_0 (w : world) : advance 0 w = w.
Proof. destruct w. unfold advance. simpl. f_equal. lia. Qed.

Lemma advance_advance (a b : nat) (w : world) :
  advance a (advance b w) = advance (b + a) w.
Proof. unfold advance. simpl. f_equal. lia. Qed.

Lemma wait_until_spec (E : env) (sel : selector) (budget : nat) (w : world) :
  (∃ k, k ≤ budget
        ∧ wait_until E sel budget w = (Ok sel, advance k w)
        ∧ present E (advance k w) sel = true
        ∧ ∀ j, j < k → present E (advance j w) sel = false)
  ∨ (wait_until E sel budget w = (Raise TimeoutException, advance budget w)
     ∧ ∀ j, j ≤ budget → present E (advance j w) sel = false).
Proof.
  revert w. induction budget as [|b IH]; intros w; simpl.
  - destruct (present E w sel) eqn:Hp.
    + left. exists 0. rewrite advance_0. split_and!; try done. intros; lia.
    + right. rewrite advance_0. split; [done|].
      intros j Hj. assert (j = 0) as -> by lia. by rewrite advance_0.
  - destruct (present E w sel) eqn:Hp.
    + left. exists 0. rewrite advance_0. split_and!; try done; [lia|].
      intros; lia.
    + destruct (IH (advance 1 w)) as [(k & Hk & Hrun & Hyes & Hno) | [Hrun Hno]].
      * left. exists (S k). rewrite advance_advance in Hrun, Hyes.
        split_and!; try done; [lia|].
        intros [|j] Hj; [by rewrite advance_0|].
        specialize (Hno j). rewrite advance_advance in Hno. apply Hno. lia.
      * right. rewrite advance_advance in Hrun. split; [done|].
        intros [|j] Hj; [by rewrite advance_0|].
        specialize (Hno j). rewrite advance_advance in Hno. apply Hno. lia.
Qed.

Lemma find_element_loop_tried (E : env) (pairs : list (string * selector))
    (w : world) :
  ∃ r w', find_element_loop E pairs w = (Ok r, w') ∧ tried E pairs w r w'.
Proof.
  revert w. induction pairs as [|[file_type sel] rest IH]; intros w.
  - exists None, w. split; [done | constructor].
  - cbn [find_element_loop].
    destruct (wait_until_spec E sel 10 w)
      as [(k & Hk & -> & Hyes & Hno) | [-> Hno]].
    + eexists _, _. split; [done|]. by constructor.
    + destruct (IH (advance 10 w)) as (r & w' & -> & Htried).
      exists r, w'. split; [done|]. by constructor.
Qed.

(** A search changes nothing but the clock, by at most 10 seconds per
    selector, and by exactly that when nothing is found. *)
Lemma tried_advance (E : env) (pairs : list (string * selector))
    (w w' : world) (r : option (selector * string)) :
  tried E pairs w r w' →
  ∃ k, w' = advance k w ∧ k ≤ 10 * length pairs
       ∧ (r = None → k = 10 * length pairs).
Proof.
  induction 1 as [w | ft sel rest w k Hk _ _
                 | ft sel rest w r w' _ _ (k & -> & Hk & Hnone)].
  - exists 0. rewrite advance_0. split_and!; done.
  - exists k. simpl. split_and!; [done|lia|done].
  - exists (10 + k). rewrite advance_advance. simpl.
    split_and!; [done|lia|]. intros Hr. specialize (Hnone Hr). lia.
Qed.

Lemma selectors_of_length (file_types : list string) :
  length (zip file_types (selectors_of file_types)) = length file_types.
Proof.
  unfold selectors_of. case_decide as H.
  - by rewrite H.
  - rewrite length_zip_with, length_map. lia.
Qed.

Lemma find_element_advance (E : env) (file_types : list string) (w : world) :
  ∃ r k, find_element E file_types w = (Ok r, advance k w)
         ∧ k ≤ 10 * length file_types.
Proof.
  unfold find_element.
  destruct (find_element_loop_tried E
              (zip file_types (selectors_of file_types)) w)
    as (r & w' & Hrun & Htried).
  destruct (tried_advance _ _ _ _ _ Htried) as (k & -> & Hk & _).
  rewrite selectors_of_length in Hk. by exists r, k.
Qed.

(** ** The dynamic fetch *)

Ltac unfold_fetch :=
  unfold set_up_soup; cbn [negb];
  unfold try_except, bind, webdriver_Chrome, driver_get,
    driver_page_source, BeautifulSoup, driver_quit, logger_info,
    logger_error, raise, ret.

(** Where a dynamic fetch can end: with the page and the browser count it
    started with, or with an exception and one more browser running; the
    clock has moved by [k] seconds. *)
Lemma set_up_soup_dynamic_ends (E : env) (url : string) (headless : bool)
    (file_types_to_wait : list string) (timeout : nat) (alt : bool)
    (w : world) :
  chrome_error E w headless = None →
  ∃ k, k ≤ 10 * length file_types_to_wait
       ∧ ∀ r w',
           set_up_soup E url true headless file_types_to_wait timeout alt w
           = (r, w') →
           clock w' = clock w + k
           ∧ match r with
             | Ok _ => browsers w' = browsers w
             | Raise _ => browsers w' = S (browsers w)
             end.
Proof.
  intros Hchrome. unfold_fetch. cbn beta iota. rewrite Hchrome.
  set (w1 := set_browsers (S (browsers w)) w).
  assert (Hc1 : clock w1 = clock w) by done.
  assert (Hb1 : browsers w1 = S (browsers w)) by done.
  clearbody w1.
  destruct (get_error E w1 url) as [e|] eqn:Hget.
  { exists 0. split; [lia|]. intros r w' [= <- <-]. wsimpl. split; [lia|done]. }
  destruct file_types_to_wait as [|t ts].
  - exists 0. split; [lia|]. intros r w'.
    destruct (page_source E _) as [html|e];
      [|intros [= <- <-]; wsimpl; split; [lia|done]].
    destruct (parse E HtmlParser html) as [page|e];
      intros [= <- <-]; wsimpl; split; lia.
  - destruct (find_element_advance E (t :: ts) w1) as (found & k & -> & Hk).
    exists k. split; [done|]. intros r w'.
    destruct found as [[sel file_type]|];
      (destruct (page_source E _) as [html|e];
       [|intros [= <- <-]; wsimpl; split; [lia|done]]);
      (destruct (parse E HtmlParser html) as [page|e];
       intros [= <- <-]; wsimpl; split; lia).
Qed.

(** C4.  The browser is to be released on every exit of a dynamic fetch.
    The code quits it on the path that returns the page only: once the
    browser has been started, every exit by an exception leaves it
    running. *)
Theorem browser_left_running_on_failure (E : env) (url : string)
    (headless : bool) (file_types_to_wait : list string) (timeout : nat)
    (alt : bool) (w w' : world) (e : exn) :
  chrome_error E w headless = None →
  set_up_soup E url true headless file_types_to_wait timeout alt w
  = (Raise e, w') →
  browsers w' = S (browsers w).
Proof.
  intros Hchrome Hrun.
  destruct (set_up_soup_dynamic_ends E url headless file_types_to_wait
              timeout alt w Hchrome) as (k & _ & H).
  by destruct (H _ _ Hrun).
Qed.

Lemma browser_left_running_on_failure_witness :
  browsers fresh_world = 0
  ∧ browsers
      (set_up_soup unreachable_site "https://unreachable.invalid/" true true
         [] 30 false fresh_world).2 = 1.
Proof.
  split; [reflexivity|].
  apply (browser_left_running_on_failure unreachable_site
           "https://unreachable.invalid/" true [] 30 false fresh_world _
           (WebDriverException "unknown error: net::ERR_NAME_NOT_RESOLVED"));
    vm_compute; reflexivity.
Defined.

(** C5, as stated, fails: with [timeout=5] and one suffix that never shows
    up, the element wait lasts 10 seconds. *)
Lemma element_wait_exceeds_caller_timeout :
  clock fresh_world = 0
  ∧ clock
      (set_up_soup empty_site "https://example.org/" true true [".zip"] 5
         false fresh_world).2 = 10.
Proof. vm_compute. split; reflexivity. Qed.

(** C5, amended.  In a dynamic fetch the caller's [timeout] plays no part:
    each selector is waited for up to 10 seconds, so that the whole wait is
    bounded by 10 seconds times the number of file types.  The file types
    are tried in the order given, the search ending with the first whose
    link shows up within its 10 seconds and moving to the next one after a
    wait that timed out. *)
Theorem element_wait_is_ten_seconds_per_selector (E : env) (url : string)
    (headless : bool) (file_types_to_wait : list string)
    (timeout timeout' : nat) (alt : bool) (w : world) :
  set_up_soup E url true headless file_types_to_wait timeout alt w
  = set_up_soup E url true headless file_types_to_wait timeout' alt w
  ∧ (∃ r w',
       find_element E file_types_to_wait w = (Ok r, w')
       ∧ tried E (zip file_types_to_wait (selectors_of file_types_to_wait))
           w r w'
       ∧ clock w ≤ clock w' ≤ clock w + 10 * length file_types_to_wait)
  ∧ clock
      (set_up_soup E url true headless file_types_to_wait timeout alt w).2
    ≤ clock w + 10 * length file_types_to_wait.
Proof.
  split; [reflexivity|]. split.
  - destruct (find_element_loop_tried E
                (zip file_types_to_wait (selectors_of file_types_to_wait)) w)
      as (r & w' & Hrun & Htried).
    exists r, w'. split; [done|]. split; [done|].
    destruct (tried_advance _ _ _ _ _ Htried) as (k & -> & Hk & _).
    rewrite selectors_of_length in Hk. wsimpl. lia.
  - destruct (chrome_error E w headless) as [e|] eqn:Hchrome.
    + unfold_fetch. cbn beta iota. rewrite Hchrome. wsimpl. lia.
    + destruct (set_up_soup_dynamic_ends E url headless file_types_to_wait
                  timeout alt w Hchrome) as (k & Hk & H).
      destruct (set_up_soup E url true headless file_types_to_wait timeout
                  alt w) as [r w'] eqn:Hrun.
      destruct (H r w' eq_refl) as [Hclock _]. simpl. lia.
Qed.

Example element_wait_falls_through :
  set_up_soup slow_site "https://example.org/" true true [".zip"; ".pdf"] 30
    false fresh_world
  = (Ok [Anchor (Some "late.pdf") None],
     World ∅ [INFO "Found .pdf file - proceed to parse HTML"] [] 13 0).
Proof. vm_compute. reflexivity. Qed.

(** C7, as stated, fails: when the browser cannot reach the page, a dynamic
    fetch with an empty wait-set logs the failure and raises it again,
    without any wait. *)
Lemma dynamic_fetch_of_unreachable_page_raises :
  set_up_soup unreachable_site "https://unreachable.invalid/" true true [] 30
    false fresh_world
  = (Raise (WebDriverException "unknown error: net::ERR_NAME_NOT_RESOLVED"),
     World ∅
       [ERROR "Failed to initialize driver: unknown error: net::ERR_NAME_NOT_RESOLVED"]
       [] 0 1).
Proof. vm_compute. reflexivity. Qed.

(** C7, amended.  A dynamic fetch with an empty wait-set waits for nothing.
    When the page loads, [set_up_soup] returns the parsed HTML that is
    in the browser at that moment and quits the browser; when loading the
    page raises, as for a page that cannot be reached, the exception is
    logged and raised again. *)
Theorem dynamic_fetch_without_wait_set (E : env) (url : string)
    (headless : bool) (timeout : nat) (alt : bool) (w : world) :
  let w1 := set_browsers (S (browsers w)) w in
  let w2 :=
    add_log (INFO "No file types specified - proceed to parse HTML") w1 in
  chrome_error E w headless = None →
  (∀ e, get_error E w1 url = Some e →
        set_up_soup E url true headless [] timeout alt w
        = (Raise e,
           add_log (ERROR ("Failed to initialize driver: " +:+ exn_str e))
             w1))
  ∧ (∀ html page,
       get_error E w1 url = None →
       page_source E w2 = Ok html →
       parse E HtmlParser html = Ok page →
       set_up_soup E url true headless [] timeout alt w
       = (Ok page, set_browsers (browsers w) w2)).
Proof.
  intros w1 w2 Hchrome. split.
  - intros e Hget. unfold_fetch. cbn beta iota. rewrite Hchrome.
    fold w1. by rewrite Hget.
  - intros html page Hget Hsrc Hparse. unfold_fetch. cbn beta iota.
    rewrite Hchrome. fold w1. rewrite Hget. fold w2. by rewrite Hsrc, Hparse.
Qed.

Lemma dynamic_fetch_without_wait_set_witness :
  set_up_soup empty_site "https://example.org/" true true [] 30 false
    fresh_world
  = (Ok [],
     World ∅ [INFO "No file types specified - proceed to parse HTML"] [] 0 0).
Proof.
  apply (proj2 (dynamic_fetch_without_wait_set empty_site
                  "https://example.org/" true 30 false fresh_world eq_refl)
           "<html></html>" [] eq_refl eq_refl eq_refl).
Defined.

(** * Further properties of the downloader *)

Section DownloadSteps.

Context (E : env) (file_path base_url : string) (timeout : nat)
  (alt : bool).

Local Abbreviation one := (download_one E file_path base_url timeout alt).
Local Abbreviation loop := (download_loop E file_path base_url timeout alt).
Local Abbreviation dest := (file_name_of file_path).
Local Abbreviation req := (file_request base_url timeout alt).

(** An href that is not skipped sleeps 5 seconds, sends its request, and
    then leaves one log entry; the file system changes at most by a regular
    file at the destination. *)
Lemma download_one_fetch (href : string) (w : world) :
  path_exists (fs w) (dest href) = false →
  ∃ e f,
    one href w
    = (Ok tt, add_log e (set_fs f (add_request (req href) (advance 5 w))))
    ∧ fs_step (dest href) (fs w) f.
Proof.
  intros Hex. unfold_download. cbn beta iota. rewrite Hex.
  fold (req href).
  set (w1 := add_request (req href) (advance 5 w)).
  destruct (http E w1 (req href)) as [r|e] eqn:Hhttp.
  2:{ destruct e; eexists _, (fs w); (split; [reflexivity | constructor]). }
  destruct (bad_status r) eqn:Hst; cbn beta iota.
  { eexists _, (fs w). split; [reflexivity | constructor]. }
  destruct (open_error E w1 (dest href)) as [e|] eqn:Hopen.
  { destruct e; eexists _, (fs w); (split; [reflexivity | constructor]). }
  destruct (Str.endswith (dest href) "/") eqn:Hslash.
  { eexists _, (fs w). split; [reflexivity | constructor]. }
  assert (Hnone : fs w !! dest href = None) by by apply not_exists_None.
  change (fs w1) with (fs w). rewrite Hnone. unfold_download.
  cbn beta iota. wsimpl.
  destruct (write_error E _ (dest href)) as [e|] eqn:Hwrite.
  { destruct e; eexists _, (<[dest href := File ""]> (fs w));
      (split; [reflexivity | constructor; [done | by rewrite Hnone]]). }
  rewrite lookup_insert_eq, insert_insert_eq. cbn beta iota.
  eexists _, (<[dest href := File (content r)]> (fs w)).
  split; [reflexivity | constructor; [done | by rewrite Hnone]].
Qed.

Lemma fs_step_subseteq (p : string) (f f' : gmap string node) :
  fs_step p f f' → path_exists f p = false → f ⊆ f'.
Proof.
  intros [|c Hslash _] Hex; [done|].
  apply insert_subseteq. by apply not_exists_None.
Qed.

Lemma download_one_subseteq (href : string) (w : world) :
  fs w ⊆ fs (one href w).2.
Proof.
  destruct (path_exists (fs w) (dest href)) eqn:Hex.
  - by rewrite download_one_existing.
  - destruct (download_one_fetch href w Hex) as (e & f & -> & Hstep).
    wsimpl. by apply (fs_step_subseteq (dest href)).
Qed.

Lemma download_one_clock (href : string) (w : world) :
  clock (one href w).2 + 5 * length (net w)
  = clock w + 5 * length (net (one href w).2).
Proof.
  destruct (path_exists (fs w) (dest href)) eqn:Hex.
  - by rewrite download_one_existing.
  - destruct (download_one_fetch href w Hex) as (e & f & -> & _).
    wsimpl. rewrite length_app. simpl. lia.
Qed.

Lemma download_one_net (href : string) (w : world) :
  net (one href w).2 = net w
  ∨ net (one href w).2 = net w ++ [req href].
Proof.
  destruct (path_exists (fs w) (dest href)) eqn:Hex.
  - left. by rewrite download_one_existing.
  - right. by destruct (download_one_fetch href w Hex) as (e & f & -> & _).
Qed.

Lemma download_one_other (href : string) (w : world) (p : string) :
  p ≠ dest href → fs (one href w).2 !! p = fs w !! p.
Proof.
  intros Hp. apply (fs_step_other (dest href)); [|done].
  apply (outcome_fs E file_path base_url timeout alt), download_one_ends.
Qed.

Lemma download_one_browsers (href : string) (w : world) :
  browsers (one href w).2 = browsers w.
Proof.
  destruct (path_exists (fs w) (dest href)) eqn:Hex.
  - by rewrite download_one_existing.
  - by destruct (download_one_fetch href w Hex) as (e & f & -> & _).
Qed.

End DownloadSteps.

(** X1. The download loop only adds to the file system: every entry that
    is there before, file or directory, is there afterwards with the same
    content. *)
Theorem download_loop_keeps_existing_entries (E : env)
    (file_path base_url : string) (timeout : nat) (alt : bool)
    (hrefs : list string) (w : world) :
  fs w ⊆ fs (download_loop E file_path base_url timeout alt hrefs w).2.
Proof.
  revert w. induction hrefs as [|href rest IH]; intros w; [done|].
  rewrite download_loop_cons. etrans; [|apply IH].
  apply download_one_subseteq.
Qed.

(** X2. The loop sleeps 5 seconds before each request it sends and at no
    other time: the time it takes is 5 seconds times the number of requests
    sent, so hrefs that are skipped cost no delay. *)
Theorem download_loop_sleeps_once_per_request (E : env)
    (file_path base_url : string) (timeout : nat) (alt : bool)
    (hrefs : list string) (w : world) :
  let w' := (download_loop E file_path base_url timeout alt hrefs w).2 in
  clock w' + 5 * length (net w) = clock w + 5 * length (net w').
Proof.
  revert w. induction hrefs as [|href rest IH]; intros w; [done|].
  cbv zeta in *. rewrite download_loop_cons.
  pose proof (download_one_clock E file_path base_url timeout alt href w).
  specialize (IH (download_one E file_path base_url timeout alt href w).2).
  lia.
Qed.

(** X3. The requests of a run are sent in the order of the hrefs, at most
    one per href (a failed download is not tried again), each to the href
    joined to the base URL, all with the same user agent and the caller's
    timeout. *)
Theorem download_loop_requests_follow_hrefs (E : env)
    (file_path base_url : string) (timeout : nat) (alt : bool)
    (hrefs : list string) (w : world) :
  ∃ fetched,
    sublist fetched hrefs
    ∧ net (download_loop E file_path base_url timeout alt hrefs w).2
      = net w
        ++ map (λ href, Request (Url.urljoin base_url href)
                          (file_user_agent alt) timeout) fetched.
Proof.
  revert w. induction hrefs as [|href rest IH]; intros w.
  - exists []. by rewrite app_nil_r.
  - rewrite download_loop_cons.
    destruct (IH (download_one E file_path base_url timeout alt href w).2)
      as (fetched & Hsub & ->).
    destruct (download_one_net E file_path base_url timeout alt href w)
      as [-> | ->].
    + exists fetched. split; [by apply sublist_cons | done].
    + exists (href :: fetched). split; [by apply sublist_skip|].
      by rewrite <- app_assoc.
Qed.



(** X5. A download that succeeds writes the whole body: when the
    destination does not exist, the answer has a status outside 400 to 599
    (any such status, a 204 or a 304 as much as a 200), and the file can be
    opened and written, the destination holds exactly the body of the
    answer afterwards and the success is logged. *)
Theorem successful_fetch_writes_body (E : env) (file_path base_url : string)
    (timeout : nat) (alt : bool) (href : string) (w : world) (r : response) :
  let request := file_request base_url timeout alt href in
  let name := file_name_of file_path href in
  let w1 := add_request request (advance 5 w) in
  path_exists (fs w) name = false →
  Str.endswith name "/" = false →
  http E w1 request = Ok r →
  bad_status r = false →
  open_error E w1 name = None →
  write_error E (set_fs (<[name := File ""]> (fs w)) w1) name = None →
  download_one E file_path base_url timeout alt href w
  = (Ok tt,
     add_log (INFO ("Successfully downloaded file: " +:+ name))
       (set_fs (<[name := File (content r)]> (fs w)) w1)).
Proof.
  intros request name w1 Hex Hslash Hr Hst Hopen Hwrite.
  pose proof (not_exists_None _ _ Hslash Hex) as Hnone.
  subst request name w1. unfold file_request in *.
  unfold_download. cbn beta iota. rewrite Hex, Hr, Hst. cbn beta iota.
  rewrite Hopen, Hslash. wsimpl. rewrite Hnone.
  unfold_download. cbn beta iota. wsimpl.
  rewrite Hwrite, lookup_insert_eq, insert_insert_eq. reflexivity.
Qed.

Lemma successful_fetch_writes_body_witness :
  ∃ w',
    download_one (static_site (λ _, Ok (Response 304 "cached"))) "out/data"
      "https://example.org/" 30 false "a.csv" fresh_world = (Ok tt, w')
    ∧ fs w' !! "out/data/a.csv" = Some (File "cached").
Proof.
  eexists. split.
  - apply (successful_fetch_writes_body
             (static_site (λ _, Ok (Response 304 "cached"))) "out/data"
             "https://example.org/" 30 false "a.csv" fresh_world
             (Response 304 "cached")); reflexivity.
  - vm_compute. reflexivity.
Defined.



(** ** [download_files] as a whole *)

Lemma os_makedirs_cases (E : env) (p : string) (w : world) :
  (∃ e, os_makedirs E p w = (Raise e, w))
  ∨ (os_makedirs E p w = (Ok tt, set_fs (<[rstrip_slash p := Dir]> (fs w)) w)
     ∧ ∀ q, q ≠ rstrip_slash p →
            (<[rstrip_slash p := Dir]> (fs w)) !! q = fs w !! q).
Proof.
  unfold os_makedirs. destruct (makedirs_error E w p) as [e|]; [by eauto|].
  destruct (fs w !! rstrip_slash p) as [[c|]|]; [by eauto|right..];
    (split; [done|]); intros q Hq; by rewrite lookup_insert_ne.
Qed.

Lemma write_lines_other (E : env) (q : string) (ls : list string)
    (w : world) (p : string) :
  p ≠ q → fs (write_lines E q ls w).2 !! p = fs w !! p.
Proof.
  intros Hp. revert w. induction ls as [|l ls IH]; intros w; [done|].
  simpl. unfold bind, file_write.
  destruct (write_error E w q); [done|].
  destruct (fs w !! q) as [[c|]|]; [|done..].
  specialize (IH (set_fs (<[q := File (c +:+ l +:+ line_feed)]> (fs w)) w)).
  destruct (write_lines E q ls _) as [[[]|e] w'];
    cbn [snd] in *; rewrite IH; wsimpl; by rewrite lookup_insert_ne.
Qed.

Lemma manifest_steps_other (E : env) (manifest msg : string)
    (urls : list string) (w : world) (p : string) :
  p ≠ manifest →
  fs ((do logger_info msg in
       do open_write E manifest in
       do write_lines E manifest urls in
       ret (Some urls)) w).2 !! p
  = fs w !! p.
Proof.
  intros Hp. unfold bind at 1. unfold logger_info.
  unfold bind at 1. unfold open_write.
  destruct (open_error E _ manifest); [done|].
  destruct (Str.endswith manifest "/"); [done|]. wsimpl.
  set (w1 := add_log _ w).
  assert (Hnext : ∀ w2, fs w2 !! p = fs w !! p →
            fs ((do write_lines E manifest urls in ret (Some urls)) w2).2 !! p
            = fs w !! p).
  { intros w2 H2. unfold bind, ret.
    pose proof (write_lines_other E manifest urls w2 p Hp) as H.
    destruct (write_lines E manifest urls w2) as [[[]|e] w3];
      simpl in *; congruence. }
  destruct (fs w !! manifest) as [[c|]|]; [|done|];
    apply Hnext; wsimpl; by rewrite lookup_insert_ne.
Qed.

Lemma download_loop_other (E : env) (file_path base_url : string)
    (timeout : nat) (alt : bool) (hrefs : list string) (w : world)
    (p : string) :
  p ∉ map (file_name_of file_path) hrefs →
  fs (download_loop E file_path base_url timeout alt hrefs w).2 !! p
  = fs w !! p.
Proof.
  revert w. induction hrefs as [|href rest IH]; intros w Hp; [done|].
  simpl in Hp. apply not_elem_of_cons in Hp as [Hne Hp].
  rewrite download_loop_cons, IH by done.
  by apply download_one_other.
Qed.

(** [download_files] after the directory has been created. *)
Lemma download_files_after_makedirs (E : env) (s : soup)
    (file_path base_url : string) (file_types : option (list string))
    (get_subpages is_subpage : bool) (timeout : nat) (alt : bool)
    (w : world) :
  let dir := data_dir file_path is_subpage in
  let urls := map (Url.urljoin base_url) (subpage_hrefs s) in
  let w1 := set_fs (<[rstrip_slash dir := Dir]> (fs w)) w in
  let w2 := (download_loop E dir base_url timeout alt
               (extract_hrefs file_types s) w1).2 in
  os_makedirs E dir w = (Ok tt, w1) →
  download_files E s file_path base_url file_types get_subpages is_subpage
    timeout alt w
  = if get_subpages then
      (do logger_info ("Found " +:+ pretty (length urls) +:+ " subpages") in
       do open_write E (dir +:+ "/subpages.txt") in
       do write_lines E (dir +:+ "/subpages.txt") urls in
       ret (Some urls)) w2
    else (Ok None, w2).
Proof.
  intros dir urls w1 w2 Hmk. unfold download_files. fold dir. fold urls.
  unfold bind at 1. rewrite Hmk.
  unfold bind at 1. rewrite download_loop_returns. fold w2.
  by destruct get_subpages.
Qed.

(** What [download_files] leaves alone: every path but the directory,
    [subpages.txt] in it and the files named after the extracted hrefs. *)
Lemma download_files_other (E : env) (s : soup)
    (file_path base_url : string) (file_types : option (list string))
    (get_subpages is_subpage : bool) (timeout : nat) (alt : bool)
    (w : world) (p : string) :
  let dir := data_dir file_path is_subpage in
  p ≠ rstrip_slash dir →
  p ≠ dir +:+ "/subpages.txt" →
  p ∉ map (file_name_of dir) (extract_hrefs file_types s) →
  fs (download_files E s file_path base_url file_types get_subpages
        is_subpage timeout alt w).2 !! p = fs w !! p.
Proof.
  intros dir Hd Hm Hout.
  destruct (os_makedirs_cases E dir w) as [(e & He) | [Hok Hother]].
  { unfold download_files, bind. fold dir. by rewrite He. }
  rewrite (download_files_after_makedirs _ _ _ _ _ _ _ _ _ _ Hok). fold dir.
  set (w2 := (download_loop E dir base_url timeout alt
                (extract_hrefs file_types s) _).2).
  assert (H2 : fs w2 !! p = fs w !! p).
  { unfold w2. rewrite download_loop_other by done. wsimpl. by apply Hother. }
  destruct get_subpages; [|done].
  by rewrite manifest_steps_other.
Qed.

(** Once made, the directory stays a directory to the end of the call,
    however the call ends. *)
Lemma download_files_directory_stays (E : env) (s : soup)
    (file_path base_url : string) (file_types : option (list string))
    (get_subpages is_subpage : bool) (timeout : nat) (alt : bool)
    (w : world) :
  let dir := data_dir file_path is_subpage in
  (os_makedirs E dir w).1 = Ok tt →
  fs (download_files E s file_path base_url file_types get_subpages
        is_subpage timeout alt w).2 !! rstrip_slash dir = Some Dir.
Proof.
  intros dir Hmk.
  destruct (os_makedirs_cases E dir w) as [(e & He) | [Hok _]].
  { by rewrite He in Hmk. }
  rewrite (download_files_after_makedirs _ _ _ _ _ _ _ _ _ _ Hok). fold dir.
  set (w2 := (download_loop E dir base_url timeout alt
                (extract_hrefs file_types s) _).2).
  assert (H2 : fs w2 !! rstrip_slash dir = Some Dir).
  { unfold w2. rewrite download_loop_dir. wsimpl. by rewrite lookup_insert_eq. }
  destruct get_subpages; [|exact H2].
  rewrite manifest_steps_other; [done|].
  intros Heq. pose proof (rstrip_slash_length dir) as Hlen.
  rewrite Heq, app_length_str in Hlen. simpl in Hlen. lia.
Qed.

(** X7. When the download directory cannot be created (the operating
    system refuses, or a regular file has its name), [download_files]
    raises that error at once: no request is sent, nothing is logged, no
    time is spent and no file is written or changed. *)
Theorem download_files_needs_its_directory (E : env) (s : soup)
    (file_path base_url : string) (file_types : option (list string))
    (get_subpages is_subpage : bool) (timeout : nat) (alt : bool)
    (w : world) (e : exn) :
  (os_makedirs E (data_dir file_path is_subpage) w).1 = Raise e →
  let run :=
    download_files E s file_path base_url file_types get_subpages is_subpage
      timeout alt w in
  run.1 = Raise e
  ∧ net run.2 = net w ∧ log run.2 = log w ∧ clock run.2 = clock w
  ∧ ∀ p content,
      fs run.2 !! p = Some (File content) ↔ fs w !! p = Some (File content).
Proof.
  intros H run.
  assert (run = (Raise e, w)) as ->; [|done].
  unfold run, download_files, bind.
  destruct (os_makedirs_cases E (data_dir file_path is_subpage) w)
    as [(e' & He) | [Hok _]].
  - rewrite He in *. simpl in H. congruence.
  - by rewrite Hok in H.
Qed.

Lemma download_files_needs_its_directory_witness :
  let w := set_fs {["out/data" := File "not a directory"]} fresh_world in
  let run :=
    download_files (static_site echo_server) [Anchor (Some "a.zip") None]
      "out" "https://example.org/" None true false 30 false w in
  run.1 = Raise (OSError "File exists") ∧ net run.2 = [] ∧ log run.2 = [].
Proof.
  intros w run.
  destruct (download_files_needs_its_directory (static_site echo_server)
              [Anchor (Some "a.zip") None] "out" "https://example.org/" None
              true false 30 false w (OSError "File exists") eq_refl)
    as (Hr & Hnet & Hlog & _).
  split; [exact Hr|]. split; [exact Hnet | exact Hlog].
Defined.

(** X8. The files that [download_files] itself writes are in the download
    directory: a regular file that it creates or changes is [subpages.txt]
    in that directory or, for an extracted href, the file in it that is
    named by the basename of the href (a name without a slash), wherever
    the href points. *)
Theorem download_files_writes_in_its_directory (E : env) (s : soup)
    (file_path base_url : string) (file_types : option (list string))
    (get_subpages is_subpage : bool) (timeout : nat) (alt : bool)
    (w : world) (p content : string) :
  let dir := data_dir file_path is_subpage in
  fs (download_files E s file_path base_url file_types get_subpages
        is_subpage timeout alt w).2 !! p = Some (File content) →
  fs w !! p ≠ Some (File content) →
  p = dir +:+ "/subpages.txt"
  ∨ ∃ href, href ∈ extract_hrefs file_types s
            ∧ p = OsPath.join dir (OsPath.basename href)
            ∧ Str.contains "/" (OsPath.basename href) = false.
Proof.
  intros dir Hnew Hold.
  destruct (decide (p = dir +:+ "/subpages.txt")) as [|Hm]; [by left|].
  destruct (decide (p ∈ map (file_name_of dir) (extract_hrefs file_types s)))
    as [Hin|Hout].
  { right. apply list_elem_of_fmap in Hin as (href & -> & Hin).
    exists href. split_and!; [done..|].
    by destruct (basename_spec href) as (head & _ & _ & H). }
  exfalso.
  destruct (decide (p = rstrip_slash dir)) as [->|Hd].
  - destruct (os_makedirs_cases E dir w) as [(e & He) | [Hok _]].
    + unfold download_files, bind in Hnew. fold dir in Hnew.
      rewrite He in Hnew. by apply Hold.
    + pose proof (download_files_directory_stays E s file_path base_url
                    file_types get_subpages is_subpage timeout alt w) as Hstay.
      cbn zeta in Hstay. fold dir in Hstay.
      rewrite Hstay in Hnew; [done | by rewrite Hok].
  - apply Hold. rewrite <- Hnew. symmetry. by apply download_files_other.
Qed.

Lemma download_files_writes_in_its_directory_witness :
  let w' :=
    (download_files (static_site echo_server)
       [Anchor (Some "../../etc/a.zip") None] "out" "https://example.org/"
       None false false 30 false fresh_world).2 in
  fs w' !! "out/data/a.zip" = Some (File "https://example.org/etc/a.zip")
  ∧ ("out/data/a.zip" = "out/data/subpages.txt"
     ∨ ∃ href, href ∈ ["../../etc/a.zip"]
               ∧ "out/data/a.zip" = OsPath.join "out/data" (OsPath.basename href)
               ∧ Str.contains "/" (OsPath.basename href) = false).
Proof.
  split; [vm_compute; reflexivity|].
  apply (download_files_writes_in_its_directory (static_site echo_server)
           [Anchor (Some "../../etc/a.zip") None] "out"
           "https://example.org/" None false false 30 false fresh_world
           "out/data/a.zip" "https://example.org/etc/a.zip").
  - vm_compute. reflexivity.
  - vm_compute. discriminate.
Defined.

(** X9. Whenever [download_files] returns, the download directory exists:
    [file_path/data], or [file_path] itself with [is_subpage]. *)
Theorem download_files_leaves_its_directory (E : env) (s : soup)
    (file_path base_url : string) (file_types : option (list string))
    (get_subpages is_subpage : bool) (timeout : nat) (alt : bool)
    (w w' : world) (r : option (list string)) :
  download_files E s file_path base_url file_types get_subpages is_subpage
    timeout alt w = (Ok r, w') →
  fs w' !! rstrip_slash (if is_subpage then file_path
                         else file_path +:+ "/data") = Some Dir.
Proof.
  replace (if is_subpage then file_path else file_path +:+ "/data")
    with (data_dir file_path is_subpage) by by destruct is_subpage.
  set (dir := data_dir file_path is_subpage).
  intros Hrun. replace w' with (Ok r, w').2 by done. rewrite <- Hrun.
  apply download_files_directory_stays. fold dir.
  destruct (os_makedirs_cases E dir w) as [(e & He) | [Hok _]].
  - unfold download_files, bind in Hrun. fold dir in Hrun.
    by rewrite He in Hrun.
  - by rewrite Hok.
Qed.

Lemma download_files_leaves_its_directory_witness :
  fs (download_files (static_site echo_server) [Anchor (Some "a.zip") None]
        "out" "https://example.org/" None true false 30 false
        fresh_world).2 !! "out/data" = Some Dir.
Proof.
  apply (download_files_leaves_its_directory (static_site echo_server)
           [Anchor (Some "a.zip") None] "out" "https://example.org/" None true
           false 30 false fresh_world _
           (Some [])).
  vm_compute. reflexivity.
Defined.

(** ** More on link extraction *)

Lemma hrefs_where_app (cond : anchor → bool) (s1 s2 : soup) :
  hrefs_where cond (s1 ++ s2) = hrefs_where cond s1 ++ hrefs_where cond s2.
Proof. unfold hrefs_where. by rewrite filter_app, omap_app. Qed.

Lemma hrefs_where_cons (cond : anchor → bool) (a : anchor) (s : soup) :
  hrefs_where cond (a :: s)
  = (if cond a then match a_href a with Some h => [h] | None => [] end
     else [])
    ++ hrefs_where cond s.
Proof.
  unfold hrefs_where. destruct (cond a) eqn:Ha.
  - rewrite filter_cons_True by done. simpl. by destruct (a_href a).
  - rewrite filter_cons_False by congruence. done.
Qed.


Lemma hrefs_where_truthy (cond : anchor → bool) (s : soup) :
  (∀ a, cond a = true → has_href a = true) →
  Forall (λ h, h ≠ "") (hrefs_where cond s)
  ∧ length (hrefs_where cond s) ≤ length s.
Proof.
  intros Himp. induction s as [|a s [IH1 IH2]]; [by split|].
  rewrite hrefs_where_cons. destruct (cond a) eqn:Ha.
  - specialize (Himp a Ha). unfold has_href in Himp.
    destruct (a_href a) as [h|]; [|done]. simpl. split; [|lia].
    constructor; [by apply truthy_true | done].
  - simpl. split; [done | lia].
Qed.

Lemma selected_has_href (file_types : list string) (a : anchor) :
  selected_with_types file_types a = true → has_href a = true.
Proof.
  unfold selected_with_types, has_href.
  destruct (a_href a); [|done]. by intros [? _]%andb_true_iff.
Qed.

(** X10. Link extraction works anchor by anchor: the hrefs of a page made
    of two parts are those of the first part followed by those of the
    second; no extracted href is empty, and there are at most as many as
    anchors. *)
Theorem extract_hrefs_anchor_by_anchor (file_types : option (list string))
    (s1 s2 : soup) :
  extract_hrefs file_types (s1 ++ s2)
  = extract_hrefs file_types s1 ++ extract_hrefs file_types s2
  ∧ Forall (λ h, h ≠ "") (extract_hrefs file_types s1)
  ∧ length (extract_hrefs file_types s1) ≤ length s1.
Proof.
  destruct file_types as [[|t ts]|]; simpl;
    unfold hrefs_all, hrefs_with_types;
    (split; [apply hrefs_where_app | apply hrefs_where_truthy]);
    first [apply selected_has_href | done].
Qed.



Lemma search_extension_of_suffix (h suf : string) :
  Str.endswith h suf = true →
  Re.search_extension suf = true → Re.search_extension h = true.
Proof.
  intros Hend Hsuf. induction h as [|c h IH].
  - apply endswith_spec in Hend as [pre H]. symmetry in H.
    apply app_eq_empty in H as [_ ->]. done.
  - change (Str.endswith (String c h) suf)
      with (String.eqb (String c h) suf || Str.endswith h suf) in Hend.
    apply orb_true_iff in Hend as [->%String.eqb_eq | Hend]; [done|].
    change (Re.search_extension (String c h))
      with (Re.match_here (String c h) || Re.search_extension h).
    by rewrite (IH Hend), orb_true_r.
Qed.

(** X12. With file types that are themselves dot-extensions, such as the
    default [.zip], [.pdf] and [.docx], no href that is downloaded for its
    suffix is listed as a subpage. *)
Theorem suffix_downloads_are_not_subpages (file_types : list string)
    (s : soup) (h : string) :
  Forall (λ suf, Re.search_extension suf = true) file_types →
  Str.endswith_any h file_types = true →
  h ∉ subpage_hrefs s.
Proof.
  intros Hall Hend. rewrite subpage_hrefs_filter.
  intros [Hsub _]%list_elem_of_filter.
  apply existsb_exists in Hend as (suf & Hin & Hend).
  rewrite Forall_forall in Hall.
  rewrite (search_extension_of_suffix h suf) in Hsub; [done|done|].
  by apply Hall, list_elem_of_In.
Qed.

Lemma suffix_downloads_are_not_subpages_witness :
  "files/report.docx"
  ∉ subpage_hrefs [Anchor (Some "files/report.docx") None;
                   Anchor (Some "files/") None].
Proof.
  apply (suffix_downloads_are_not_subpages [".zip"; ".pdf"; ".docx"]).
  - repeat constructor.
  - reflexivity.
Defined.

(** ** More on destination names *)

Lemma no_slash_not_absolute (n : string) :
  Str.contains "/" n = false → Str.startswith n "/" = false.
Proof.
  destruct n as [|c n]; [done|].
  cbn [Str.contains Str.startswith].
  intros [Hc _]%orb_false_iff. by rewrite Ascii.eqb_sym, Hc.
Qed.

(** X13. Two hrefs are saved to the same path exactly when they have the
    same basename: the directory part of an href never tells two files
    apart, and different basenames never collide. *)
Theorem same_file_name_iff_same_basename (file_path h1 h2 : string) :
  file_name_of file_path h1 = file_name_of file_path h2
  ↔ OsPath.basename h1 = OsPath.basename h2.
Proof.
  split; [|by unfold file_name_of; intros ->].
  unfold file_name_of, OsPath.join.
  destruct (basename_spec h1) as (_ & _ & _ & H1).
  destruct (basename_spec h2) as (_ & _ & _ & H2).
  rewrite (no_slash_not_absolute _ H1), (no_slash_not_absolute _ H2).
  destruct (negb (Str.truthy file_path) || Str.endswith file_path "/");
    intros H.
  - by apply (inj (String.app file_path)) in H.
  - apply (inj (String.app file_path)) in H.
    by apply (inj (String.app "/")) in H.
Qed.

(** * Further properties of the page fetcher *)

Ltac unfold_static :=
  unfold set_up_soup; cbn [negb];
  unfold try_except, bind, requests_get, raise_for_status, BeautifulSoup,
    logger_info, logger_error, raise, ret.

(** X14. A static fetch sends exactly one GET, to the URL given, with the
    page user agent and the caller's timeout, whatever the outcome; it
    starts no browser, waits for nothing and writes no file, and the
    options [headless] and [file_types_to_wait] play no part in it. *)
Theorem static_fetch_sends_one_request (E : env) (url : string)
    (headless headless' : bool) (fts fts' : list string) (timeout : nat)
    (alt : bool) (w : world) :
  let w' := (set_up_soup E url false headless fts timeout alt w).2 in
  net w' = net w ++ [Request url (page_user_agent alt) timeout]
  ∧ browsers w' = browsers w ∧ clock w' = clock w ∧ fs w' = fs w
  ∧ set_up_soup E url false headless fts timeout alt w
    = set_up_soup E url false headless' fts' timeout alt w.
Proof.
  cbv zeta. split_and!; try reflexivity; unfold_static; cbn beta iota;
    (destruct (http E _ _) as [r|e]; [|by destruct e]);
    (destruct (bad_status r); [done|]);
    (destruct (parse E Lxml (content r)) as [page|e];
     [done | by destruct e]).
Qed.

(** X15. How a static fetch ends.  It returns the page when the server
    answers with a status outside 400 to 599 and the body parses, and then
    logs the success.  An exception of the HTTP client, a status from 400
    to 599 included, is logged as "Error fetching URL" and raised again;
    any other exception, such as one of the parser, is raised without a
    log entry. *)
Theorem static_fetch_outcomes (E : env) (url : string) (headless : bool)
    (fts : list string) (timeout : nat) (alt : bool) (w w' : world)
    (r : result soup) :
  let request := Request url (page_user_agent alt) timeout in
  set_up_soup E url false headless fts timeout alt w = (r, w') →
  match r with
  | Ok page =>
      (∃ resp, http E (add_request request w) request = Ok resp
               ∧ bad_status resp = false
               ∧ parse E Lxml (content resp) = Ok page)
      ∧ log w'
        = log w ++ [INFO ("Successfully fetched and parsed URL: " +:+ url)]
  | Raise (RequestException m) =>
      log w' = log w ++ [ERROR ("Error fetching URL " +:+ url +:+ ": " +:+ m)]
  | Raise _ => log w' = log w
  end.
Proof.
  intros request. subst request. unfold_static. cbn beta iota.
  destruct (http E _ _) as [resp|e] eqn:Hhttp.
  2:{ destruct e; intros [= <- <-]; done. }
  destruct (bad_status resp) eqn:Hst; [by intros [= <- <-]|].
  destruct (parse E Lxml (content resp)) as [page|e] eqn:Hparse.
  - intros [= <- <-]. split; [|done]. by exists resp.
  - destruct e; intros [= <- <-]; done.
Qed.

Lemma static_fetch_outcomes_witness :
  log (set_up_soup (static_site partial_server) "https://example.org/a/" false
         true ["all"] 30 false fresh_world).2
  = [ERROR "Error fetching URL https://example.org/a/: 404 Client Error for url: https://example.org/a/"].
Proof.
  apply (static_fetch_outcomes (static_site partial_server)
           "https://example.org/a/" true ["all"] 30 false fresh_world _
           (Raise (RequestException
                     "404 Client Error for url: https://example.org/a/"))).
  vm_compute. reflexivity.
Defined.

Lemma tried_none (E : env) (pairs : list (string * selector))
    (w w' : world) (r : option (selector * string)) :
  tried E pairs w r w' → r = None →
  w' = advance (10 * length pairs) w
  ∧ ∀ i file_type sel j,
      pairs !! i = Some (file_type, sel) → j ≤ 10 →
      present E (advance (10 * i + j) w) sel = false.
Proof.
  induction 1 as [w | ft sel rest w k _ _ _
                 | ft sel rest w r w' Hno _ IH]; intros Hr.
  - split; [by rewrite advance_0 | done].
  - done.
  - destruct (IH Hr) as [-> Hrest]. split.
    + rewrite advance_advance. f_equal. simpl. lia.
    + intros [|i] file_type sel' j Hlook Hj.
      * injection Hlook as <- <-.
        replace (10 * 0 + j) with j by lia. by apply Hno.
      * specialize (Hrest i file_type sel' j Hlook Hj).
        rewrite advance_advance in Hrest.
        by replace (10 * S i + j) with (10 + (10 * i + j)) by lia.
Qed.

(** When the waits of [find_element] all end in a timeout, nothing but the
    clock has changed, 10 seconds have passed per file type, and at each
    second of its turn each selector had no element in the page. *)
Theorem find_element_gives_up_after_full_waits (E : env)
    (file_types : list string) (w w' : world) :
  find_element E file_types w = (Ok None, w') →
  w' = advance (10 * length file_types) w
  ∧ ∀ i file_type sel j,
      zip file_types (selectors_of file_types) !! i = Some (file_type, sel) →
      j ≤ 10 →
      present E (advance (10 * i + j) w) sel = false.
Proof.
  intros Hrun. unfold find_element in Hrun.
  destruct (find_element_loop_tried E
              (zip file_types (selectors_of file_types)) w)
    as (r & w2 & Hrun2 & Htried).
  rewrite Hrun in Hrun2. injection Hrun2 as <- <-.
  destruct (tried_none _ _ _ _ _ Htried eq_refl) as [Hw Hno].
  by rewrite selectors_of_length in Hw.
Qed.

Lemma find_element_gives_up_after_full_waits_witness :
  (find_element empty_site [".zip"; ".pdf"] fresh_world).2
  = advance 20 fresh_world.
Proof.
  apply (find_element_gives_up_after_full_waits empty_site [".zip"; ".pdf"]
           fresh_world).
  vm_compute. reflexivity.
Defined.

Lemma find_element_loop_absent (E : env) (pairs : list (string * selector))
    (w : world) :
  (∀ w' sel, present E w' sel = false) →
  find_element_loop E pairs w = (Ok None, advance (10 * length pairs) w).
Proof.
  intros Habs. revert w. induction pairs as [|[ft sel] rest IH]; intros w.
  - by rewrite advance_0.
  - cbn [find_element_loop].
    destruct (wait_until_spec E sel 10 w)
      as [(k & _ & _ & Hyes & _) | [-> _]]; [by rewrite Habs in Hyes|].
    rewrite IH, advance_advance. do 2 f_equal. simpl. lia.
Qed.

(** X16. An element that never shows up does not fail a dynamic fetch: when
    the page loads but none of the awaited links appears, [set_up_soup]
    waits 10 seconds per file type, logs an error, and still returns the
    parsed page source and quits the browser. *)
Theorem dynamic_fetch_survives_missing_element (E : env) (url : string)
    (headless : bool) (t : string) (ts : list string) (timeout : nat)
    (alt : bool) (w : world) (html : string) (page : soup) :
  let w1 := set_browsers (S (browsers w)) w in
  let w2 :=
    add_log
      (ERROR ("No element found containing the specified file types: "
              +:+ Str.repr_tuple (t :: ts)))
      (advance (10 * length (t :: ts)) w1) in
  chrome_error E w headless = None →
  get_error E w1 url = None →
  (∀ w' sel, present E w' sel = false) →
  page_source E w2 = Ok html →
  parse E HtmlParser html = Ok page →
  set_up_soup E url true headless (t :: ts) timeout alt w
  = (Ok page, set_browsers (browsers w) w2).
Proof.
  intros w1 w2 Hchrome Hget Habs Hsrc Hparse.
  unfold_fetch. cbn beta iota. rewrite Hchrome. fold w1. rewrite Hget.
  unfold find_element. rewrite (find_element_loop_absent _ _ _ Habs).
  rewrite selectors_of_length. fold w2. by rewrite Hsrc, Hparse.
Qed.

Lemma dynamic_fetch_survives_missing_element_witness :
  set_up_soup empty_site "https://example.org/" true true [".zip"] 30 false
    fresh_world
  = (Ok [],
     World ∅
       [ERROR "No element found containing the specified file types: ('.zip',)"]
       [] 10 0).
Proof.
  apply (dynamic_fetch_survives_missing_element empty_site
           "https://example.org/" true ".zip" [] 30 false fresh_world
           "<html></html>" []); reflexivity.
Defined.

(** X17. Every exception of a dynamic fetch is logged as "Failed to
    initialize driver", whichever step raised it: starting the browser,
    loading the page, reading the page source or parsing it. *)
Theorem dynamic_fetch_failure_is_logged_as_driver_failure (E : env)
    (url : string) (headless : bool) (fts : list string) (timeout : nat)
    (alt : bool) (w w' : world) (e : exn) :
  set_up_soup E url true headless fts timeout alt w = (Raise e, w') →
  ∃ earlier,
    log w' = earlier ++ [ERROR ("Failed to initialize driver: " +:+ exn_str e)].
Proof.
  unfold_fetch. cbn beta iota.
  destruct (chrome_error E w headless) as [e0|].
  { intros [= <- <-]. by eexists. }
  set (w1 := set_browsers (S (browsers w)) w). clearbody w1.
  destruct (get_error E w1 url) as [e0|].
  { intros [= <- <-]. by eexists. }
  destruct fts as [|t ts].
  - destruct (page_source E _) as [html|e0];
      [|intros [= <- <-]; by eexists].
    destruct (parse E HtmlParser html) as [page|e0];
      intros [= <- <-]; by eexists.
  - destruct (find_element_advance E (t :: ts) w1) as (found & k & -> & _).
    destruct found as [[sel file_type]|];
      (destruct (page_source E _) as [html|e0];
       [|intros [= <- <-]; by eexists]);
      (destruct (parse E HtmlParser html) as [page|e0];
       intros [= <- <-]; by eexists).
Qed.

Lemma dynamic_fetch_failure_is_logged_as_driver_failure_witness :
  ∃ earlier,
    log (set_up_soup unreachable_site "https://unreachable.invalid/" true true
           [".zip"] 30 false fresh_world).2
    = earlier
      ++ [ERROR "Failed to initialize driver: unknown error: net::ERR_NAME_NOT_RESOLVED"].
Proof.
  apply (dynamic_fetch_failure_is_logged_as_driver_failure unreachable_site
           "https://unreachable.invalid/" true [".zip"] 30 false fresh_world _
           (WebDriverException "unknown error: net::ERR_NAME_NOT_RESOLVED")).
  vm_compute. reflexivity.
Defined.

(** * Properties of the Selenium helpers *)

Module UiFacts.
Import Ui.

Lemma later_0 (s : session) : later 0 s = s.
Proof. destruct s. unfold later. simpl. f_equal. lia. Qed.

Lemma later_later (a b : nat) (s : session) :
  later a (later b s) = later (b + a) s.
Proof. unfold later. simpl. f_equal. lia. Qed.

Lemma poll_quiet {A : Type} (condition : session → res (option A))
    (s : session) :
  quiet (condition s) → poll condition s = Done None.
Proof. unfold poll. by intros [-> | [msg ->]]. Qed.

Lemma poll_cases {A : Type} (condition : session → res (option A))
    (s : session) :
  (∃ a, poll condition s = Done (Some a) ∧ condition s = Done (Some a))
  ∨ (∃ e, poll condition s = Raised e ∧ condition s = Raised e)
  ∨ (poll condition s = Done None ∧ quiet (condition s)).
Proof.
  unfold poll, quiet. destruct (condition s) as [[a|]|[]]; eauto 6.
Qed.

(** A wait ends within its budget, in one of three ways: with the element
    that the look at that time gave, with the exception that the look at
    that time raised, or with a timeout after the whole budget. *)
Lemma until_spec {A : Type} (condition : session → res (option A))
    (budget : nat) (s : session) :
  (∃ k a, k ≤ budget
          ∧ until condition budget s = (Done a, later k s)
          ∧ condition (later k s) = Done (Some a))
  ∨ (∃ k e, k ≤ budget
            ∧ until condition budget s = (Raised e, later k s)
            ∧ condition (later k s) = Raised e)
  ∨ (until condition budget s = (Raised Timeout, later budget s)
     ∧ ∀ j, j ≤ budget → quiet (condition (later j s))).
Proof.
  revert s. induction budget as [|b IH]; intros s; cbn [until].
  - destruct (poll_cases condition s)
      as [(a & -> & Hc) | [(e & -> & Hc) | [-> Hc]]].
    + left. exists 0, a. rewrite later_0. by split_and!.
    + right; left. exists 0, e. rewrite later_0. by split_and!.
    + right; right. rewrite later_0. split; [done|].
      intros j Hj. assert (j = 0) as -> by lia. by rewrite later_0.
  - destruct (poll_cases condition s)
      as [(a & -> & Hc) | [(e & -> & Hc) | [-> Hc]]].
    + left. exists 0, a. rewrite later_0. split_and!; [lia|done..].
    + right; left. exists 0, e. rewrite later_0. split_and!; [lia|done..].
    + unfold tick.
      destruct (IH (later 1 s))
        as [(k & a & Hk & Hrun & Hyes)
           | [(k & e & Hk & Hrun & Hyes) | [Hrun Hno]]].
      * left. exists (S k), a. rewrite later_later in Hrun, Hyes.
        split_and!; [lia|done..].
      * right; left. exists (S k), e. rewrite later_later in Hrun, Hyes.
        split_and!; [lia|done..].
      * right; right. rewrite later_later in Hrun. split; [done|].
        intros [|j] Hj; [by rewrite later_0|].
        specialize (Hno j). rewrite later_later in Hno. apply Hno. lia.
Qed.

Lemma until_time {A : Type} (condition : session → res (option A))
    (budget : nat) (s : session) :
  ∃ k r, k ≤ budget ∧ until condition budget s = (r, later k s).
Proof.
  destruct (until_spec condition budget s)
    as [(k & a & Hk & -> & _) | [(k & e & Hk & -> & _) | [-> _]]]; eauto.
Qed.

Lemma until_absent {A : Type} (condition : session → res (option A))
    (budget : nat) (s : session) :
  (∀ s', quiet (condition s')) →
  until condition budget s = (Raised Timeout, later budget s).
Proof.
  intros Habs. revert s. induction budget as [|b IH]; intros s; cbn [until];
    rewrite poll_quiet by done.
  - by rewrite later_0.
  - unfold tick. by rewrite IH, later_later.
Qed.

Ltac unfold_ui :=
  unfold click_button, select_dropdown, enter_text, get_href, try_except,
    bind, ret, report, print, execute_click, select, clear, send_keys.

Ltac usimpl := cbn [now stdout actions later add_line add_action fst snd].

End UiFacts.

(** X18. [click_button] never raises and returns nothing in every case:
    either it clicks one element and prints nothing, or it prints one line
    and clicks nothing.  It waits at most [timeout] seconds, and not at all
    when it is given the element itself. *)
Theorem click_button_never_raises (P : Ui.page) (identifier : Ui.target)
    (by_ : string) (timeout : nat) (s : Ui.session) :
  ∃ s',
    Ui.click_button P identifier by_ timeout s = (Ui.Done tt, s')
    ∧ Ui.now s ≤ Ui.now s' ≤ Ui.now s + timeout
    ∧ ((∃ element, Ui.actions s' = Ui.actions s ++ [Ui.Click element]
                   ∧ Ui.stdout s' = Ui.stdout s)
       ∨ (∃ line, Ui.actions s' = Ui.actions s
                  ∧ Ui.stdout s' = Ui.stdout s ++ [line]))
    ∧ (∀ element, identifier = Ui.WebElement element →
                  Ui.now s' = Ui.now s).
Proof.
  UiFacts.unfold_ui. destruct identifier as [element|i].
  - destruct (Ui.script_error P s element) as [[]|];
      eexists; (split; [reflexivity|]); UiFacts.usimpl;
      (split; [lia|]); (split; [|done]); eauto.
  - destruct (UiFacts.until_time (λ s0, Ui.clickable P s0 by_ i) timeout s)
      as (k & [element|[]] & Hk & ->).
    + destruct (Ui.script_error P _ element) as [[]|];
        eexists; (split; [reflexivity|]); UiFacts.usimpl;
        (split; [lia|]); (split; [|done]); eauto.
    + eexists. split; [reflexivity|]. UiFacts.usimpl.
      split; [lia|]. split; [|done]. eauto.
    + eexists. split; [reflexivity|]. UiFacts.usimpl.
      split; [lia|]. split; [|done]. eauto.
    + eexists. split; [reflexivity|]. UiFacts.usimpl.
      split; [lia|]. split; [|done]. eauto.
Qed.

(** X19. [click_button] waits as long as its caller says: when the element
    never becomes clickable (it is missing, or there but not clickable, at
    every look), it gives up after exactly [timeout] seconds, prints the
    timeout message with that number, and clicks nothing.  A missing
    element is reported as a timeout, not as "not found". *)
Theorem click_button_waits_for_its_timeout (P : Ui.page)
    (identifier by_ : string) (timeout : nat) (s : Ui.session) :
  (∀ s', Ui.quiet (Ui.clickable P s' by_ identifier)) →
  Ui.click_button P (Ui.Identifier identifier) by_ timeout s
  = (Ui.Done tt,
     Ui.add_line
       ("Timeout: The button with identifier " +:+ identifier
        +:+ " was not clickable within " +:+ pretty timeout +:+ " seconds.")
       (Ui.later timeout s)).
Proof.
  intros Habs. UiFacts.unfold_ui.
  by rewrite (UiFacts.until_absent (λ s0, Ui.clickable P s0 by_ identifier)).
Qed.

Lemma click_button_waits_for_its_timeout_witness :
  Ui.click_button Ui.sample_page (Ui.Identifier "missing") "id" 7 Ui.start
  = (Ui.Done tt,
     Ui.Session 7
       ["Timeout: The button with identifier missing was not clickable within 7 seconds."]
       []).
Proof.
  apply (click_button_waits_for_its_timeout Ui.sample_page "missing" "id" 7
           Ui.start).
  intros s'. right. by eexists.
Defined.

(** X20. [select_dropdown] never raises and its result tells what
    happened.  [True] means that exactly one selection was made and nothing
    was printed: by value when a value is given, else by visible text when
    an option is given, else by index.  [False] means that nothing was
    selected and one line was printed.  It waits at most 15 seconds, or 30
    with [wait_for_visibility]. *)
Theorem select_dropdown_result_is_truthful (P : Ui.page)
    (identifier by_ : string) (value option_ : option string)
    (index : option nat) (wait_for_visibility : bool) (s : Ui.session) :
  ∃ done s',
    Ui.select_dropdown P identifier by_ value option_ index
      wait_for_visibility s = (Ui.Done done, s')
    ∧ Ui.now s'
      ≤ Ui.now s + (if wait_for_visibility then 30 else 15)
    ∧ if done then
        Ui.stdout s' = Ui.stdout s
        ∧ ∃ element,
            Ui.actions s'
            = Ui.actions s
              ++ [match value, option_ with
                  | Some v, _ => Ui.SelectByValue element v
                  | None, Some o => Ui.SelectByText element o
                  | None, None => Ui.SelectByIndex element index
                  end]
      else
        Ui.actions s' = Ui.actions s
        ∧ ∃ line, Ui.stdout s' = Ui.stdout s ++ [line].
Proof.
  assert (Hclick : ∀ s1 : Ui.session,
            ∃ done s',
              Ui.try_except
                (Ui.bind (Ui.until (λ s0, Ui.clickable P s0 by_ identifier) 15)
                   (λ element,
                      Ui.bind
                        (Ui.select P
                           (Ui.choice element value option_ index))
                        (λ _, Ui.ret true)))
                (λ e,
                   Ui.bind
                     (Ui.report
                        ("Timeout: The menu with identifier " +:+ identifier
                         +:+ " was not clickable within 15 seconds.")
                        ("Error: The menu with identifier " +:+ identifier
                         +:+ " was not found.") e)
                     (λ _, Ui.ret false)) s1 = (Ui.Done done, s')
              ∧ Ui.now s' ≤ Ui.now s1 + 15
              ∧ if done then
                  Ui.stdout s' = Ui.stdout s1
                  ∧ ∃ element,
                      Ui.actions s'
                      = Ui.actions s1
                        ++ [Ui.choice element value option_ index]
                else
                  Ui.actions s' = Ui.actions s1
                  ∧ ∃ line, Ui.stdout s' = Ui.stdout s1 ++ [line]).
  { intros s1. UiFacts.unfold_ui.
    destruct (UiFacts.until_time (λ s0, Ui.clickable P s0 by_ identifier)
                15 s1) as (k & [element|[]] & Hk & ->).
    - destruct (Ui.select_error P _ _) as [[]|].
      1-3: exists false; eexists; (split; [reflexivity|]); UiFacts.usimpl;
        (split; [lia|]); split; [done | eauto].
      exists true. eexists. split; [reflexivity|]. UiFacts.usimpl.
      split; [lia|]. split; [done | eauto].
    - exists false. eexists. split; [reflexivity|]. UiFacts.usimpl.
      split; [lia|]. split; [done | eauto].
    - exists false. eexists. split; [reflexivity|]. UiFacts.usimpl.
      split; [lia|]. split; [done | eauto].
    - exists false. eexists. split; [reflexivity|]. UiFacts.usimpl.
      split; [lia|]. split; [done | eauto]. }
  assert (Hchoice : ∀ element,
            Ui.choice element value option_ index
            = match value, option_ with
              | Some v, _ => Ui.SelectByValue element v
              | None, Some o => Ui.SelectByText element o
              | None, None => Ui.SelectByIndex element index
              end) by done.
  destruct wait_for_visibility.
  - unfold Ui.select_dropdown.
    unfold Ui.try_except at 1, Ui.bind at 1, Ui.bind at 1.
    destruct (UiFacts.until_time (λ s0, Ui.visible P s0 by_ identifier) 15 s)
      as (k & [element|[]] & Hk & ->).
    + destruct (Hclick (Ui.later k s)) as (done & s' & Hrun & Hnow & Hres).
      unfold Ui.try_except in Hrun. unfold Ui.ret at 1.
      exists done, s'. split.
      * by destruct (Ui.bind _ _ (Ui.later k s)) as [[]]; simplify_eq.
      * cbn [Ui.now Ui.later] in Hnow. split; [lia|].
        destruct done; [|done]. destruct Hres as [? [e He]].
        split; [done|]. exists e. by rewrite <- Hchoice.
    + UiFacts.unfold_ui. exists false. eexists.
      split; [reflexivity|]. UiFacts.usimpl. split; [lia|].
      split; [done | eauto].
    + UiFacts.unfold_ui. exists false. eexists.
      split; [reflexivity|]. UiFacts.usimpl. split; [lia|].
      split; [done | eauto].
    + UiFacts.unfold_ui. exists false. eexists.
      split; [reflexivity|]. UiFacts.usimpl. split; [lia|].
      split; [done | eauto].
  - destruct (Hclick s) as (done & s' & Hrun & Hnow & Hres).
    exists done, s'. split; [exact Hrun|]. split; [lia|].
    destruct done; [|done]. destruct Hres as [? [e He]].
    split; [done|]. exists e. by rewrite <- Hchoice.
Qed.

(** X21. [enter_text] never raises and returns nothing in every case.
    Text is typed only into a field that was cleared just before: either
    the field is cleared and the text typed, with nothing printed, or one
    line is printed and at most the clearing took place.  The wait is at
    most 15 seconds. *)
Theorem enter_text_clears_before_typing (P : Ui.page)
    (identifier text by_ : string) (s : Ui.session) :
  ∃ s',
    Ui.enter_text P identifier text by_ s = (Ui.Done tt, s')
    ∧ Ui.now s' ≤ Ui.now s + 15
    ∧ ((∃ element,
          Ui.actions s'
          = Ui.actions s ++ [Ui.Clear element; Ui.SendKeys element text]
          ∧ Ui.stdout s' = Ui.stdout s)
       ∨ (∃ line,
            Ui.stdout s' = Ui.stdout s ++ [line]
            ∧ (Ui.actions s' = Ui.actions s
               ∨ ∃ element,
                   Ui.actions s' = Ui.actions s ++ [Ui.Clear element]))).
Proof.
  UiFacts.unfold_ui.
  destruct (UiFacts.until_time (λ s0, Ui.clickable P s0 by_ identifier) 15 s)
    as (k & [element|[]] & Hk & ->).
  - destruct (Ui.clear_error P _ element) as [[]|].
    1-3: eexists; (split; [reflexivity|]); UiFacts.usimpl;
      (split; [lia|]); right; eauto.
    destruct (Ui.send_keys_error P _ element text) as [[]|].
    1-3: eexists; (split; [reflexivity|]); UiFacts.usimpl;
      (split; [lia|]); right; eauto.
    eexists. split; [reflexivity|]. UiFacts.usimpl. split; [lia|].
    left. exists element. by rewrite <- app_assoc.
  - eexists. split; [reflexivity|]. UiFacts.usimpl. split; [lia|].
    right. eauto.
  - eexists. split; [reflexivity|]. UiFacts.usimpl. split; [lia|].
    right. eauto.
  - eexists. split; [reflexivity|]. UiFacts.usimpl. split; [lia|].
    right. eauto.
Qed.

(** X22. [get_href] handles no exception: when the element never becomes
    clickable it raises [TimeoutException] after 15 seconds, and an
    exception of the look-up other than [NoSuchElementException] comes out
    as it is, at once.  When the element is clickable at once it returns the
    value of its [href] attribute, or raises what reading the attribute
    raises.  It never prints and does nothing to the page. *)
Theorem get_href_raises_on_timeout (P : Ui.page) (identifier by_ : string)
    (s : Ui.session) :
  ((∀ s', Ui.quiet (Ui.clickable P s' by_ identifier)) →
   Ui.get_href P identifier by_ s = (Ui.Raised Ui.Timeout, Ui.later 15 s))
  ∧ (∀ e, Ui.clickable P s by_ identifier = Ui.Raised e →
          (∀ msg, e ≠ Ui.NoSuchElement msg) →
          Ui.get_href P identifier by_ s = (Ui.Raised e, s))
  ∧ (∀ element,
       Ui.clickable P s by_ identifier = Ui.Done (Some element) →
       Ui.get_href P identifier by_ s
       = (Ui.attribute P s element "href", s))
  ∧ Ui.stdout (Ui.get_href P identifier by_ s).2 = Ui.stdout s
  ∧ Ui.actions (Ui.get_href P identifier by_ s).2 = Ui.actions s.
Proof.
  split_and!.
  - intros Habs. UiFacts.unfold_ui.
    by rewrite (UiFacts.until_absent (λ s0, Ui.clickable P s0 by_ identifier)).
  - intros e He Hne. UiFacts.unfold_ui. cbn [Ui.until]. unfold Ui.poll.
    rewrite He. destruct e; [done| |done]. by destruct (Hne msg).
  - intros element He. UiFacts.unfold_ui. cbn [Ui.until]. unfold Ui.poll.
    by rewrite He.
  - UiFacts.unfold_ui.
    by destruct (UiFacts.until_time (λ s0, Ui.clickable P s0 by_ identifier)
                   15 s) as (k & [element|e] & Hk & ->).
  - UiFacts.unfold_ui.
    by destruct (UiFacts.until_time (λ s0, Ui.clickable P s0 by_ identifier)
                   15 s) as (k & [element|e] & Hk & ->).
Qed.

Lemma get_href_raises_on_timeout_witness :
  Ui.get_href Ui.sample_page "missing" "id" Ui.start
  = (Ui.Raised Ui.Timeout, Ui.Session 15 [] [])
  ∧ Ui.get_href Ui.sample_page "go" "id" (Ui.Session 3 [] [])
    = (Ui.Done (Some "/next"), Ui.Session 3 [] []).
Proof.
  pose proof (get_href_raises_on_timeout Ui.sample_page "missing" "id"
                Ui.start) as (Hmiss & _).
  pose proof (get_href_raises_on_timeout Ui.sample_page "go" "id"
                (Ui.Session 3 [] [])) as (_ & _ & Hgo & _).
  split.
  - apply Hmiss. intros s'. right. by eexists.
  - apply (Hgo "button#go"). reflexivity.
Defined.

(** * Properties of [set_up_driver] and [create_logger] *)

(** X23. [set_up_driver] either starts one browser, which it leaves running
    for its caller, and logs the success, or logs the failure and raises it
    again with no browser started. *)
Theorem set_up_driver_starts_one_browser_or_none (E : env) (headless : bool)
    (download_location : option string) (w w' : world) (r : result unit) :
  set_up_driver E headless download_location w = (r, w') →
  match r with
  | Ok _ =>
      browsers w' = S (browsers w)
      ∧ log w' = log w ++ [INFO "Successfully initialized driver"]
  | Raise e =>
      browsers w' = browsers w
      ∧ log w'
        = log w ++ [ERROR ("Failed to initialize driver: " +:+ exn_str e)]
  end.
Proof.
  unfold set_up_driver, try_except, bind, webdriver_Chrome, logger_info,
    logger_error, raise.
  destruct (chrome_error E w headless) as [e|]; intros [= <- <-]; by split.
Qed.

Lemma set_up_driver_starts_one_browser_or_none_witness :
  browsers (set_up_driver empty_site true (Some "downloads") fresh_world).2
  = 1.
Proof.
  apply (set_up_driver_starts_one_browser_or_none empty_site true
           (Some "downloads") fresh_world _ (Ok tt)).
  reflexivity.
Defined.

Lemma rpartition_app (c : ascii) (a b : string) :
  Str.contains c b = false →
  Str.rpartition c (a +:+ String c b) = Some (a, b).
Proof.
  intros Hb. induction a as [|x a IH]; simpl.
  - apply rpartition_None in Hb as ->. by rewrite Ascii.eqb_refl.
  - by rewrite IH.
Qed.

Lemma rstrip_slash_app_slash (p : string) :
  rstrip_slash (p +:+ "/") = rstrip_slash p.
Proof.
  induction p as [|a p IH]; [done|]. simpl. by rewrite IH.
Qed.

Lemma rstrip_slash_no_slash (p : string) (c : ascii) :
  c ≠ "/"%char → rstrip_slash (p +:+ String c "") = p +:+ String c "".
Proof.
  intros Hc. induction p as [|a p IH]; simpl.
  - apply Ascii.eqb_neq in Hc as ->. done.
  - rewrite IH. by destruct p.
Qed.

Lemma forallb_app (P : ascii → bool) (s t : string) :
  Str.forallb P (s +:+ t) = Str.forallb P s && Str.forallb P t.
Proof.
  induction s as [|a s IH]; simpl; [done|]. by rewrite IH, andb_assoc.
Qed.

(** The directory of the log file, for names without a slash. *)
Lemma log_directory (file_path resource_name now : string) :
  Str.contains "/" resource_name = false →
  Str.contains "/" now = false →
  os_path_dirname (log_filename file_path resource_name now)
  = file_path +:+ "/logs".
Proof.
  intros Hr Hn. unfold os_path_dirname, log_filename.
  replace (file_path +:+ "/logs/" +:+ resource_name +:+ "_" +:+ now +:+ ".log")
    with ((file_path +:+ "/logs")
          +:+ String "/" (resource_name +:+ "_" +:+ now +:+ ".log"))
    by (by rewrite app_assoc_str).
  rewrite rpartition_app.
  2:{ rewrite !contains_app, Hr, Hn. done. }
  cbn zeta.
  replace (Str.forallb (Ascii.eqb "/") ((file_path +:+ "/logs") +:+ "/"))
    with false.
  2:{ rewrite !forallb_app. simpl. by rewrite andb_false_r. }
  rewrite rstrip_slash_app_slash.
  replace (file_path +:+ "/logs") with ((file_path +:+ "/log") +:+ "s")
    by (by rewrite app_assoc_str).
  by apply rstrip_slash_no_slash.
Qed.

Lemma create_logger_ok (E : env) (file_path resource_name now name : string)
    (loggers loggers' : gmap string logger) (w w' : world) :
  create_logger E file_path resource_name now loggers w
  = (Ok name, (loggers', w')) →
  let file := log_filename file_path resource_name now in
  let dir := rstrip_slash (os_path_dirname file) in
  name = resource_name
  ∧ loggers'
    = <[resource_name :=
          Logger INFO_level
            (handlers_of loggers resource_name
             ++ [FileHandler file; StreamHandler])]> loggers
  ∧ Str.endswith file "/" = false
  ∧ ∃ f, f !! dir = Some Dir
         ∧ (∀ q, q ≠ dir → f !! q = fs w !! q)
         ∧ ((∃ c, f !! file = Some (File c) ∧ fs w' = f)
            ∨ (f !! file = None ∧ fs w' = <[file := File ""]> f)).
Proof.
  unfold create_logger.
  destruct (os_makedirs_cases E
              (os_path_dirname (log_filename file_path resource_name now)) w)
    as [(e & ->) | [-> Hother]]; [done|].
  unfold open_append.
  destruct (open_error E _ _); [done|].
  destruct (Str.endswith (log_filename file_path resource_name now) "/")
    eqn:Hslash; [done|]. wsimpl.
  destruct (_ !! log_filename file_path resource_name now)
    as [[c|]|] eqn:Hlook; [|done|]; intros [= <- <- <-]; cbv zeta;
    (split_and!; [done..|]); eexists; (split; [apply lookup_insert_eq|]);
    (split; [exact Hother|]); wsimpl; eauto.
Qed.

Lemma handlers_of_insert (loggers : gmap string logger) (name : string)
    (l : logger) :
  handlers_of (<[name := l]> loggers) name = handlers l.
Proof. unfold handlers_of, getLogger. by rewrite lookup_insert_eq. Qed.

(** X24. [create_logger] adds to a logger and never resets it: a second
    call for the same resource name returns the same logger with a second
    file handler and a second console handler after the first pair, so that
    from then on every record is emitted twice on the console; loggers of
    other names are left alone. *)
Theorem create_logger_twice_doubles_handlers (E : env)
    (path1 path2 resource_name now1 now2 name1 name2 : string)
    (loggers loggers1 loggers2 : gmap string logger) (w w1 w2 : world) :
  create_logger E path1 resource_name now1 loggers w
  = (Ok name1, (loggers1, w1)) →
  create_logger E path2 resource_name now2 loggers1 w1
  = (Ok name2, (loggers2, w2)) →
  name1 = name2
  ∧ handlers_of loggers2 resource_name
    = handlers_of loggers resource_name
      ++ [FileHandler (log_filename path1 resource_name now1); StreamHandler;
          FileHandler (log_filename path2 resource_name now2); StreamHandler]
  ∧ ∀ other, other ≠ resource_name → loggers2 !! other = loggers !! other.
Proof.
  intros (-> & -> & _)%create_logger_ok (-> & -> & _)%create_logger_ok.
  split; [done|]. split.
  - rewrite handlers_of_insert. cbn [handlers].
    rewrite handlers_of_insert. cbn [handlers].
    by rewrite <- app_assoc.
  - intros other Hother. by rewrite !lookup_insert_ne.
Qed.

Lemma create_logger_twice_doubles_handlers_witness :
  let first :=
    create_logger empty_site "run" "scrape" "20250101_120000" ∅ fresh_world in
  let second :=
    create_logger empty_site "run" "scrape" "20250101_120500"
      first.2.1 first.2.2 in
  first.1 = Ok "scrape" ∧ second.1 = Ok "scrape"
  ∧ handlers_of second.2.1 "scrape"
    = [FileHandler "run/logs/scrape_20250101_120000.log"; StreamHandler;
       FileHandler "run/logs/scrape_20250101_120500.log"; StreamHandler].
Proof.
  intros first second.
  assert (first = (Ok "scrape", (first.2.1, first.2.2))) as H1
    by (vm_compute; reflexivity).
  assert (second = (Ok "scrape", (second.2.1, second.2.2))) as H2
    by (vm_compute; reflexivity).
  split; [by rewrite H1|]. split; [by rewrite H2|].
  exact (proj1 (proj2
    (create_logger_twice_doubles_handlers empty_site "run" "run" "scrape"
       "20250101_120000" "20250101_120500" "scrape" "scrape"
       ∅ first.2.1 second.2.1 fresh_world first.2.2 second.2.2 H1 H2))).
Defined.

Lemma log_file_not_its_directory (file_path rest : string) :
  file_path +:+ "/logs/" +:+ rest ≠ file_path +:+ "/logs".
Proof.
  intros H%(inj (String.append file_path)). simpl in H. discriminate.
Qed.

(** X25. When the resource name holds no slash (the time stamp never
    does), a call of [create_logger] that returns leaves the directory
    [file_path/logs] in place and the log file in it; a log file of that
    name that was already there keeps its content, and no other regular
    file is created or changed. *)
Theorem create_logger_log_file_under_logs (E : env)
    (file_path resource_name now name : string)
    (loggers loggers' : gmap string logger) (w w' : world) :
  Str.contains "/" resource_name = false →
  Str.contains "/" now = false →
  create_logger E file_path resource_name now loggers w
  = (Ok name, (loggers', w')) →
  let file := log_filename file_path resource_name now in
  fs w' !! (file_path +:+ "/logs") = Some Dir
  ∧ (∃ content, fs w' !! file = Some (File content))
  ∧ (∀ content, fs w !! file = Some (File content) →
       fs w' !! file = Some (File content))
  ∧ ∀ q content, q ≠ file → fs w' !! q = Some (File content) →
                 fs w !! q = Some (File content).
Proof.
  intros Hname Hnow Hrun file.
  apply create_logger_ok in Hrun as (_ & _ & _ & f & Hdir & Hrest & Hfile).
  cbn zeta in Hdir, Hrest, Hfile. fold file in Hdir, Hrest, Hfile.
  assert (rstrip_slash (os_path_dirname file) = file_path +:+ "/logs") as Hd.
  { unfold file. rewrite log_directory by done.
    replace (file_path +:+ "/logs") with ((file_path +:+ "/log") +:+ "s")
      by (by rewrite app_assoc_str).
    by apply rstrip_slash_no_slash. }
  rewrite Hd in Hdir, Hrest.
  assert (file ≠ file_path +:+ "/logs") as Hne
    by apply log_file_not_its_directory.
  destruct Hfile as [(c & Hc & ->)|[Hnone ->]]; split_and!.
  - done.
  - by exists c.
  - intros content Hold. by rewrite Hrest.
  - intros q content _ Hq.
    destruct (decide (q = file_path +:+ "/logs")) as [->|Hq2];
      [congruence | by rewrite <- Hrest].
  - by rewrite lookup_insert_ne.
  - exists "". by rewrite lookup_insert_eq.
  - intros content Hold. rewrite Hrest in Hnone by done. congruence.
  - intros q content Hq1 Hq. rewrite lookup_insert_ne in Hq by done.
    destruct (decide (q = file_path +:+ "/logs")) as [->|Hq2];
      [congruence | by rewrite <- Hrest].
Qed.

Lemma create_logger_log_file_under_logs_witness :
  let run :=
    create_logger empty_site "run" "scrape" "20250101_120000" ∅ fresh_world in
  run.1 = Ok "scrape"
  ∧ fs run.2.2 !! "run/logs" = Some Dir
  ∧ ∃ content,
      fs run.2.2 !! "run/logs/scrape_20250101_120000.log"
      = Some (File content).
Proof.
  intros run.
  assert (run = (Ok "scrape", (run.2.1, run.2.2))) as H
    by (vm_compute; reflexivity).
  split; [by rewrite H|].
  pose proof (create_logger_log_file_under_logs empty_site "run" "scrape"
    "20250101_120000" "scrape" ∅ run.2.1 fresh_world run.2.2
    eq_refl eq_refl H) as (Hdir & Hfile & _).
  split; [exact Hdir | exact Hfile].
Defined.
